(** * Media::Stories::ReplyArea

    A shallow embedding of
    [Telegram/SourceFiles/media/stories/media_stories_reply.cpp]:
    the controller behind the "reply to a story" composer.

    The C++ object is single-threaded and event driven.  Its members are
    the fields of [World]; every call it makes on a collaborator that is
    not part of that file (the session API, the ui-show facade, the
    compose-controls widget, the file dialog, the timer) is appended to
    an effect log, so that "what was handed to whom, and in which order"
    is a property of a list.  Contract macros ([Expects], [Unexpected])
    and undefined behaviour are the [Violation] outcome.

    [initGeometry] only lays the widget out and [focusedValue] only
    forwards a producer; neither touches the members and neither is
    modelled. *)

From Stdlib Require Import ZArith NArith List String Bool Lia.
Import ListNotations.
Local Open Scope string_scope.
Local Open Scope list_scope.

(** ** Plain data *)

Definition QString := string.
Definition QByteArray := string.
Definition QStringList := list QString.

(** Objects owned elsewhere are known to this file by address only. *)
Definition UserPtr := N.
Definition PeerPtr := N.
Definition HistoryPtr := N.

Definition PeerId := Z.
Definition StoryId := Z.
Definition MsgId := Z.
Definition TimeId := Z.
Definition WebPageId := Z.

Record TextWithTags := {
  text : QString;
  tags : list (Z * Z * QString)
}.

Definition TextWithTags_empty : TextWithTags := {| text := ""; tags := [] |}.

(** [QString::isEmpty]. *)
Definition isEmpty (s : QString) : bool :=
  match s with EmptyString => true | String _ _ => false end.

(** [ReplyAreaData]: the user replied to and the story replied to.
    [user] is a raw pointer in the source, [None] is [nullptr]. *)
Record ReplyAreaData := {
  user : option UserPtr;
  id : StoryId
}.

Definition UserPtr_opt_eqb (a b : option UserPtr) : bool :=
  match a, b with
  | Some x, Some y => N.eqb x y
  | None, None => true
  | _, _ => false
  end.

(** [operator==] on [ReplyAreaData]: member-wise. *)
Definition ReplyAreaData_eqb (a b : ReplyAreaData) : bool :=
  UserPtr_opt_eqb (user a) (user b) && Z.eqb (id a) (id b).

Module Api.

Record SendOptions := {
  sendAs : option PeerPtr;
  scheduled : TimeId;
  silent : bool
}.

(** [Api::SendOptions{}]. *)
Definition SendOptions_default : SendOptions :=
  {| sendAs := None; scheduled := 0%Z; silent := false |}.

Record FullStoryId := {
  peer : PeerId;
  story : StoryId
}.

Record FullReplyTo := {
  msgId : MsgId;
  storyId : FullStoryId
}.

Record SendAction := {
  history : HistoryPtr;
  options : SendOptions;
  replyTo : FullReplyTo;
  clearDraft : bool
}.

(** [Api::SendAction(history, options)]: the remaining members take
    their in-class initialisers. *)
Definition SendAction_new (h : HistoryPtr) (o : SendOptions) : SendAction :=
  {| history := h;
     options := o;
     replyTo := {| msgId := 0%Z;
                   storyId := {| peer := 0%Z; story := 0%Z |} |};
     clearDraft := true |}.

Record MessageToSend := {
  action : SendAction;
  textWithTags : TextWithTags;
  webPageId : WebPageId
}.

(** [Api::MessageToSend(action)]. *)
Definition MessageToSend_new (a : SendAction) : MessageToSend :=
  {| action := a; textWithTags := TextWithTags_empty; webPageId := 0%Z |}.

End Api.

Inductive SendMediaType := SendMediaType_Photo | SendMediaType_File.

Module Ui.

(** [Ui::PreparedList::Error]. *)
Module Error.
Inductive t := None | EmptyFile | Directory | NonLocalUrl | TooLargeFile.

Definition eqb (a b : t) : bool :=
  match a, b with
  | None, None | EmptyFile, EmptyFile | Directory, Directory
  | NonLocalUrl, NonLocalUrl | TooLargeFile, TooLargeFile => true
  | _, _ => false
  end.
End Error.

Record PreparedFile := {
  path : QString;
  size : Z
}.

Record PreparedList := {
  error : Error.t;
  errorData : QString;
  files : list PreparedFile;
  filesToProcess : list PreparedFile;
  overrideSendImagesAsPhotos : option bool
}.

Definition with_override (l : PreparedList) (o : option bool) : PreparedList :=
  {| error := error l;
     errorData := errorData l;
     files := files l;
     filesToProcess := filesToProcess l;
     overrideSendImagesAsPhotos := o |}.

Module AlbumType.
Inductive t := None | PhotoVideo | Music | File.

Definition is_None (a : t) : bool :=
  match a with None => true | _ => false end.
End AlbumType.

Record PreparedGroup := {
  list : PreparedList;
  type : AlbumType.t
}.

Record SendFilesWay := {
  sendImagesAsPhotos : bool;
  groupFiles : bool
}.

(** [Ui::InputField::MimeAction]. *)
Inductive MimeAction := Check | Insert.

End Ui.

Record QImage := {
  isNull : bool;
  pixels : N
}.

(** [Images::ReadResult], as far as this file looks into it. *)
Record ReadResult := {
  image : QImage;
  animated : bool
}.

(** What the input widget is offered on a drop or a paste. *)
Record QMimeData := {
  hasImage : bool;
  mimeUrls : list QString;        (* Core::ReadMimeUrls *)
  mimeImage : QImage;             (* Core::ReadMimeImage(data).image *)
  mimeContent : QByteArray;       (* Core::ReadMimeImage(data).content *)
  mimeText : QString              (* Core::ReadMimeText *)
}.

Record VoiceToSend := {
  bytes : QByteArray;
  waveform : list Z;
  duration : Z;
  voice_options : Api.SendOptions
}.

Module FileDialog.
Inductive Filter := ImagesOrAllFilter | AllOrImagesFilter.

Record OpenResult := {
  paths : QStringList;
  remoteContent : QByteArray
}.
End FileDialog.

(** The descriptor handed to [Box<SendFilesBox>]; [limits] and [check]
    are both derived from the peer, which is what is recorded. *)
Record SendFilesBoxDescriptor := {
  box_list : Ui.PreparedList;
  box_caption : TextWithTags;
  box_peer : option UserPtr;
  box_insertTextOnCancel : QString
}.

(** ** Collaborators

    Functions this file calls and does not define. *)
Class Collaborators := {
  (* user->owner().history(user) *)
  owner_history : UserPtr -> HistoryPtr;
  (* user->id *)
  user_id : UserPtr -> PeerId;
  (* user->slowmodeApplied() *)
  slowmodeApplied : UserPtr -> bool;
  (* session().premium(), session().user()->isPremium() *)
  session_premium : UserPtr -> bool;
  (* GetErrorTextForSending(peer, { .text, .ignoreSlowmodeCountdown }) *)
  GetErrorTextForSending : option UserPtr -> TextWithTags -> bool -> QString;
  (* Data::FileRestrictionError(peer, list, compress) *)
  FileRestrictionError :
    option UserPtr -> Ui.PreparedList -> option bool -> option QString;
  (* Data::AnyFileRestrictionError(peer) *)
  AnyFileRestrictionError : UserPtr -> option QString;
  (* Storage::PrepareMediaList(files, st::sendMediaPreviewSize, premium) *)
  PrepareMediaList : QStringList -> bool -> Ui.PreparedList;
  (* Storage::PrepareMediaFromImage(image, content, st::sendMediaPreviewSize) *)
  PrepareMediaFromImage : QImage -> QByteArray -> Ui.PreparedList;
  (* Images::Read({ .content }) *)
  Images_Read : QByteArray -> ReadResult;
  (* Ui::DivideByGroups(list, way, slowmode) *)
  DivideByGroups :
    Ui.PreparedList -> Ui.SendFilesWay -> bool -> list Ui.PreparedGroup;
  (* Ui::PreparedGroup::sentWithCaption() *)
  sentWithCaption : Ui.PreparedGroup -> bool;
  (* _controls->confirmMediaEdit(list) *)
  confirmMediaEdit : Ui.PreparedList -> bool;
  (* tr::lng_send_image_empty(tr::now, lt_name, name) *)
  lng_send_image_empty : QString -> QString;
  (* tr::lng_forward_send_files_cant(tr::now) *)
  lng_forward_send_files_cant : QString
}.

(** ** The compose-controls widget *)

Module HistoryView.

(** What this file reads from and writes to [ComposeControls]. *)
Record ComposeControls := {
  field : TextWithTags;
  webPageId : WebPageId;
  history : option HistoryPtr;
  sendAsPeer : option PeerPtr
}.

(** Modelled from the spec: [ComposeControls::clear] is defined in
    history_view_compose_controls.cpp; it "clears the input widget",
    that is, the text of the field becomes empty. *)
Definition clear (c : ComposeControls) : ComposeControls :=
  {| field := TextWithTags_empty;
     webPageId := webPageId c;
     history := history c;
     sendAsPeer := sendAsPeer c |}.

(** Modelled from the spec: [ComposeControls::setHistory] is defined in
    history_view_compose_controls.cpp; it "swaps which conversation
    history the underlying API will target". *)
Definition setHistory (h : option HistoryPtr) (c : ComposeControls)
  : ComposeControls :=
  {| field := field c;
     webPageId := webPageId c;
     history := h;
     sendAsPeer := sendAsPeer c |}.

(** The user edits the field. *)
Definition setText (t : TextWithTags) (c : ComposeControls)
  : ComposeControls :=
  {| field := t;
     webPageId := webPageId c;
     history := history c;
     sendAsPeer := sendAsPeer c |}.

(** A freshly constructed widget: empty field, no history. *)
Definition fresh : ComposeControls :=
  {| field := TextWithTags_empty;
     webPageId := 0%Z;
     history := None;
     sendAsPeer := None |}.

End HistoryView.

Module ChatHelpers.
Record FileChosen := {
  document : N;
  file_options : Api.SendOptions
}.
Record PhotoChosen := {
  photo : N;
  photo_options : Api.SendOptions
}.
Record InlineChosen := {
  result : N;
  bot : N;
  inline_options : Api.SendOptions
}.
End ChatHelpers.

(** ** Effects and the state of the world *)

(** Calls on collaborators, in the order they are made. *)
Inductive Effect :=
  (* _controller->uiShow() *)
  | showToast (text : QString)
  | showBox_FileSizeLimitBox (fileSize : Z)
  | show_SendFilesBox (descriptor : SendFilesBoxDescriptor)
  | hideLayer
  (* _controller *)
  | unfocusReply
  | wrap_setFocus
  (* session().api() *)
  | api_sendMessage (message : Api.MessageToSend)
  | api_sendVoiceMessage (data : VoiceToSend) (action : Api.SendAction)
  | api_sendFile (content : QByteArray) (type : SendMediaType)
      (action : Api.SendAction)
  | api_sendFiles (list : Ui.PreparedList) (type : SendMediaType)
      (caption : TextWithTags) (album : bool) (action : Api.SendAction)
  (* _controls *)
  | controls_clear
  | controls_clearListenState
  | controls_hidePanelsAnimated
  | controls_setHistory (history : option HistoryPtr)
  (* base::call_delayed, FileDialog::GetOpenPaths *)
  | call_delayed (overrideCompress : option bool)
  | GetOpenPaths (filter : FileDialog.Filter).

(** The session-level messaging API. *)
Definition is_session_send (e : Effect) : bool :=
  match e with
  | api_sendMessage _ | api_sendVoiceMessage _ _
  | api_sendFile _ _ _ | api_sendFiles _ _ _ _ _ => true
  | _ => false
  end.

(** Modelled from the spec: [base::has_weak_ptr], [invalidate_weak_ptrs]
    and [crl::guard] are library code outside this file; the spec calls
    the member "a weak handle" that is "invalidated".  A handle taken from the
    object is live until the next invalidation, so the object is a
    generation number and a handle is the generation it was taken in. *)
Definition WeakHandle := nat.

Definition has_weak_ptr := nat.

Definition make_weak (object : has_weak_ptr) : WeakHandle := object.

Definition invalidate_weak_ptrs (object : has_weak_ptr) : has_weak_ptr :=
  S object.

Definition alive (h : WeakHandle) (object : has_weak_ptr) : bool :=
  Nat.eqb h object.

(** A file dialog that has been requested and has not reported yet:
    the guarded callback of [chooseAttach] with what it captured.
    [opened_under] is the user the request was made for; no operation
    reads it, it is there for the statements only. *)
Record OpenDialog := {
  guard : WeakHandle;
  captured_override : option bool;
  opened_under : UserPtr
}.

Record World := {
  (* members of ReplyArea *)
  _data : ReplyAreaData;
  _shownUserGuard : has_weak_ptr;
  _choosingAttach : bool;
  _controls : HistoryView.ComposeControls;
  (* callbacks handed out and not yet run *)
  delayed : list (option bool);
  dialogs : list OpenDialog;
  (* collaborator calls made so far *)
  log : list Effect
}.

Definition set_data (d : ReplyAreaData) (w : World) : World :=
  {| _data := d;
     _shownUserGuard := _shownUserGuard w;
     _choosingAttach := _choosingAttach w;
     _controls := _controls w;
     delayed := delayed w;
     dialogs := dialogs w;
     log := log w |}.

Definition set_shownUserGuard (g : has_weak_ptr) (w : World) : World :=
  {| _data := _data w;
     _shownUserGuard := g;
     _choosingAttach := _choosingAttach w;
     _controls := _controls w;
     delayed := delayed w;
     dialogs := dialogs w;
     log := log w |}.

Definition set_choosingAttach (b : bool) (w : World) : World :=
  {| _data := _data w;
     _shownUserGuard := _shownUserGuard w;
     _choosingAttach := b;
     _controls := _controls w;
     delayed := delayed w;
     dialogs := dialogs w;
     log := log w |}.

Definition set_controls (c : HistoryView.ComposeControls) (w : World) : World :=
  {| _data := _data w;
     _shownUserGuard := _shownUserGuard w;
     _choosingAttach := _choosingAttach w;
     _controls := c;
     delayed := delayed w;
     dialogs := dialogs w;
     log := log w |}.

Definition set_delayed (l : list (option bool)) (w : World) : World :=
  {| _data := _data w;
     _shownUserGuard := _shownUserGuard w;
     _choosingAttach := _choosingAttach w;
     _controls := _controls w;
     delayed := l;
     dialogs := dialogs w;
     log := log w |}.

Definition set_dialogs (l : list OpenDialog) (w : World) : World :=
  {| _data := _data w;
     _shownUserGuard := _shownUserGuard w;
     _choosingAttach := _choosingAttach w;
     _controls := _controls w;
     delayed := delayed w;
     dialogs := l;
     log := log w |}.

Definition set_log (l : list Effect) (w : World) : World :=
  {| _data := _data w;
     _shownUserGuard := _shownUserGuard w;
     _choosingAttach := _choosingAttach w;
     _controls := _controls w;
     delayed := delayed w;
     dialogs := dialogs w;
     log := l |}.

(** The object right after its constructor has run. *)
Definition constructed : World :=
  {| _data := {| user := None; id := 0%Z |};
     _shownUserGuard := 0;
     _choosingAttach := false;
     _controls := HistoryView.fresh;
     delayed := [];
     dialogs := [];
     log := [] |}.

(** ** State, effects and contract violations *)

Inductive Outcome (A : Type) :=
  | Done (a : A) (w : World)
  | Violation (what : string).
Arguments Done {A} a w.
Arguments Violation {A} what.

Definition M (A : Type) := World -> Outcome A.

Definition ret {A} (a : A) : M A := fun w => Done a w.

Definition bind {A B} (c : M A) (k : A -> M B) : M B :=
  fun w =>
    match c w with
    | Done a w' => k a w'
    | Violation what => Violation what
    end.

Declare Scope reply_scope.
Delimit Scope reply_scope with reply.
Notation "x <- c ;; k" := (bind c (fun x => k))
  (at level 61, c at next level, right associativity) : reply_scope.
Notation "c ;; k" := (bind c (fun _ => k))
  (at level 61, right associativity) : reply_scope.
Local Open Scope reply_scope.

Definition gets {A} (f : World -> A) : M A := fun w => Done (f w) w.

Definition modify (f : World -> World) : M unit := fun w => Done tt (f w).

Definition violation {A} (what : string) : M A := fun _ => Violation what.

Definition emit (e : Effect) : M unit :=
  modify (fun w => set_log (log w ++ [e]) w).

Definition when (b : bool) (c : M unit) : M unit :=
  if b then c else ret tt.

(** Remove the [n]-th element. *)
Fixpoint remove_nth {A} (n : nat) (l : list A) : list A :=
  match n, l with
  | _, [] => []
  | O, _ :: l' => l'
  | S n', x :: l' => x :: remove_nth n' l'
  end.

(** ** The member functions *)

Section ReplyArea.

Context {collaborators : Collaborators}.

(** [_controls->getTextWithAppliedMarkdown()]. *)
Definition getTextWithAppliedMarkdown : M TextWithTags :=
  gets (fun w => HistoryView.field (_controls w)).

(** [_controls->clear()]. *)
Definition controls_do_clear : M unit :=
  emit controls_clear ;;
  modify (fun w => set_controls (HistoryView.clear (_controls w)) w).

(** [_controls->setHistory({ .history = history })]. *)
Definition controls_do_setHistory (h : option HistoryPtr) : M unit :=
  emit (controls_setHistory h) ;;
  modify (fun w => set_controls (HistoryView.setHistory h (_controls w)) w).

(** [ReplyArea::session]: the session of the current user. *)
Definition session : M UserPtr :=
  d <- gets _data ;;
  match user d with
  | Some u => ret u
  | None => violation "Expects(_data.user != nullptr)"
  end.

(** [ReplyArea::prepareSendAction]. *)
Definition prepareSendAction (options : Api.SendOptions)
  : M Api.SendAction :=
  d <- gets _data ;;
  match user d with
  | None => violation "Expects(_data.user != nullptr)"
  | Some u =>
      let history := owner_history u in
      let result := Api.SendAction_new history options in
      sendAsPeer <- gets (fun w => HistoryView.sendAsPeer (_controls w)) ;;
      ret {| Api.history := Api.history result;
             Api.options :=
               {| Api.sendAs := sendAsPeer;
                  Api.scheduled := Api.scheduled (Api.options result);
                  Api.silent := Api.silent (Api.options result) |};
             Api.replyTo :=
               {| Api.msgId := Api.msgId (Api.replyTo result);
                  Api.storyId :=
                    {| Api.peer := user_id u; Api.story := id d |} |};
             Api.clearDraft := Api.clearDraft result |}
  end.

(** [ReplyArea::finishSending]. *)
Definition finishSending : M unit :=
  emit controls_hidePanelsAnimated ;;
  emit wrap_setFocus.

(** [ReplyArea::send]. *)
Definition send (options : Api.SendOptions) : M unit :=
  webPageId <- gets (fun w => HistoryView.webPageId (_controls w)) ;;
  action <- prepareSendAction options ;;
  textWithTags <- getTextWithAppliedMarkdown ;;
  let message :=
    {| Api.action := Api.action (Api.MessageToSend_new action);
       Api.textWithTags := textWithTags;
       Api.webPageId := webPageId |} in
  d <- gets _data ;;
  let error :=
    GetErrorTextForSending
      (user d)
      (Api.textWithTags message)
      (negb (Z.eqb (Api.scheduled options) 0)) in
  when (negb (isEmpty error)) (emit (showToast error)) ;;
  _ <- session ;;
  emit (api_sendMessage message) ;;
  controls_do_clear ;;
  finishSending.

(** [ReplyArea::sendVoice]. *)
Definition sendVoice (data : VoiceToSend) : M unit :=
  action <- prepareSendAction (voice_options data) ;;
  _ <- session ;;
  emit (api_sendVoiceMessage data action) ;;
  emit controls_clearListenState ;;
  finishSending.

(** [ReplyArea::uploadFile]. *)
Definition uploadFile (fileContent : QByteArray) (type : SendMediaType)
  : M unit :=
  _ <- session ;;
  action <- prepareSendAction Api.SendOptions_default ;;
  emit (api_sendFile fileContent type action).

(** The lambda that computes [text] in [showSendingFilesError].  The
    switch covers every enumerator, so the statement after it
    ([lng_forward_send_files_cant]) is not reached. *)
Definition sendingFilesErrorText
    (peer : option UserPtr) (list : Ui.PreparedList)
    (compress : option bool) : QString :=
  match FileRestrictionError peer list compress with
  | Some error => error
  | None =>
      match Ui.error list with
      | Ui.Error.None => ""
      | Ui.Error.EmptyFile
      | Ui.Error.Directory
      | Ui.Error.NonLocalUrl => lng_send_image_empty (Ui.errorData list)
      | Ui.Error.TooLargeFile => "(toolarge)"
      end
  end.

(** [list.files.back()]; on an empty vector the behaviour is undefined. *)
Definition files_back (list : Ui.PreparedList) : M Ui.PreparedFile :=
  match Ui.files list with
  | f :: rest => ret (last rest f)
  | [] => violation "back() of an empty vector"
  end.

(** [ReplyArea::showSendingFilesError(list, compress)]. *)
Definition showSendingFilesError
    (list : Ui.PreparedList) (compress : option bool) : M bool :=
  d <- gets _data ;;
  let text := sendingFilesErrorText (user d) list compress in
  if isEmpty text then
    ret false
  else if String.eqb text "(toolarge)" then
    f <- files_back list ;;
    let fileSize := Ui.size f in
    _ <- session ;;
    emit (showBox_FileSizeLimitBox fileSize) ;;
    ret true
  else
    emit (showToast text) ;;
    ret true.

(** [ReplyArea::showSendingFilesError(list)]. *)
Definition showSendingFilesError_1 (list : Ui.PreparedList) : M bool :=
  showSendingFilesError list None.

(** [ReplyArea::sendingFilesConfirmed]: the loop over the groups;
    [base::take(caption)] hands the caption to the first group and
    leaves it empty for the others. *)
Fixpoint sendGroups
    (groups : list Ui.PreparedGroup) (type : SendMediaType)
    (caption : TextWithTags) (action : Api.SendAction) : M unit :=
  match groups with
  | [] => ret tt
  | group :: rest =>
      let album := negb (Ui.AlbumType.is_None (Ui.type group)) in
      _ <- session ;;
      emit (api_sendFiles (Ui.list group) type caption album action) ;;
      sendGroups rest type TextWithTags_empty action
  end.

Definition with_clearDraft (a : Api.SendAction) (b : bool)
  : Api.SendAction :=
  {| Api.history := Api.history a;
     Api.options := Api.options a;
     Api.replyTo := Api.replyTo a;
     Api.clearDraft := b |}.

Definition is_nil {A} (l : list A) : bool :=
  match l with [] => true | _ => false end.

(** [groups.size() != 1 || !groups.front().sentWithCaption()]. *)
Definition captionGoesFirst (groups : list Ui.PreparedGroup) : bool :=
  match groups with
  | [g] => negb (sentWithCaption g)
  | _ => true
  end.

(** [ReplyArea::sendingFilesConfirmed]. *)
Definition sendingFilesConfirmed
    (list : Ui.PreparedList) (way : Ui.SendFilesWay)
    (caption : TextWithTags) (options : Api.SendOptions)
    (ctrlShiftEnter : bool) : M unit :=
  if negb (is_nil (Ui.filesToProcess list)) then
    violation "Expects(list.filesToProcess.empty())"
  else
    failed <- showSendingFilesError list (Some (Ui.sendImagesAsPhotos way)) ;;
    if failed : bool then
      ret tt
    else
      d <- gets _data ;;
      match user d with
      | None => violation "_data.user->slowmodeApplied() on nullptr"
      | Some u =>
          let groups := DivideByGroups list way (slowmodeApplied u) in
          let type :=
            if Ui.sendImagesAsPhotos way
            then SendMediaType_Photo
            else SendMediaType_File in
          action <- prepareSendAction options ;;
          let action := with_clearDraft action false in
          let separate :=
            captionGoesFirst groups && negb (isEmpty (text caption)) in
          when separate
            (let message :=
               {| Api.action := action;
                  Api.textWithTags := caption;
                  Api.webPageId :=
                    Api.webPageId (Api.MessageToSend_new action) |} in
             _ <- session ;;
             emit (api_sendMessage message)) ;;
          sendGroups groups type
            (if separate then TextWithTags_empty else caption) action ;;
          finishSending
      end.

(** [ReplyArea::confirmSendingFiles(Ui::PreparedList&&, insertTextOnCancel)]. *)
Definition confirmSendingFiles_list
    (list : Ui.PreparedList) (insertTextOnCancel : QString) : M bool :=
  if confirmMediaEdit list then
    ret true
  else
    failed <- showSendingFilesError_1 list ;;
    if failed : bool then
      ret false
    else
      caption <- getTextWithAppliedMarkdown ;;
      d <- gets _data ;;
      emit (show_SendFilesBox
              {| box_list := list;
                 box_caption := caption;
                 box_peer := user d;
                 box_insertTextOnCancel := insertTextOnCancel |}) ;;
      ret true.

(** [ReplyArea::confirmSendingFiles(QImage&&, QByteArray&&, ...)]. *)
Definition confirmSendingFiles_image
    (image : QImage) (content : QByteArray)
    (overrideSendImagesAsPhotos : option bool)
    (insertTextOnCancel : QString) : M bool :=
  if isNull image then
    ret false
  else
    let list := PrepareMediaFromImage image content in
    let list := Ui.with_override list overrideSendImagesAsPhotos in
    confirmSendingFiles_list list insertTextOnCancel.

(** [ReplyArea::confirmSendingFiles(not_null<const QMimeData*>, ...)].
    [Core::ReadMimeImage] converts to [true] when it holds an image. *)
Definition confirmSendingFiles
    (data : QMimeData) (overrideSendImagesAsPhotos : option bool)
    (insertTextOnCancel : QString) : M bool :=
  let hasImage := hasImage data in
  u <- session ;;
  let premium := session_premium u in
  let fromImage : M bool :=
    if negb (isNull (mimeImage data)) then
      _ <- confirmSendingFiles_image
             (mimeImage data) (mimeContent data)
             overrideSendImagesAsPhotos insertTextOnCancel ;;
      ret true
    else
      ret false in
  let urls := mimeUrls data in
  if negb (is_nil urls) then
    let list := PrepareMediaList urls premium in
    if negb (Ui.Error.eqb (Ui.error list) Ui.Error.NonLocalUrl)
       && (Ui.Error.eqb (Ui.error list) Ui.Error.None || negb hasImage)
    then
      let emptyTextOnCancel := "" in
      let list := Ui.with_override list overrideSendImagesAsPhotos in
      _ <- confirmSendingFiles_list list emptyTextOnCancel ;;
      ret true
    else
      fromImage
  else
    fromImage.

(** [ReplyArea::chooseAttach]: the [callback] lambda. *)
Definition chooseAttach_callback
    (overrideSendImagesAsPhotos : option bool)
    (result : FileDialog.OpenResult) : M unit :=
  let paths := FileDialog.paths result in
  let remoteContent := FileDialog.remoteContent result in
  if is_nil paths && isEmpty remoteContent then
    ret tt
  else if negb (isEmpty remoteContent) then
    let read := Images_Read remoteContent in
    if negb (isNull (image read)) && negb (animated read) then
      _ <- confirmSendingFiles_image
             (image read) remoteContent overrideSendImagesAsPhotos "" ;;
      ret tt
    else
      uploadFile remoteContent SendMediaType_File
  else
    u <- session ;;
    let premium := session_premium u in
    let list := PrepareMediaList paths premium in
    let list := Ui.with_override list overrideSendImagesAsPhotos in
    _ <- confirmSendingFiles_list list "" ;;
    ret tt.

(** [overrideSendImagesAsPhotos == true]. *)
Definition is_true (o : option bool) : bool :=
  match o with Some true => true | _ => false end.

(** [ReplyArea::chooseAttach].  [FileDialog::GetOpenPaths] returns at
    once; the guarded callback joins [dialogs] until the dialog
    reports. *)
Definition chooseAttach (overrideSendImagesAsPhotos : option bool)
  : M unit :=
  d <- gets _data ;;
  match user d with
  | None => ret tt
  | Some user =>
      modify (set_choosingAttach false) ;;
      match AnyFileRestrictionError user with
      | Some error => emit (showToast error)
      | None =>
          let filter :=
            if is_true overrideSendImagesAsPhotos
            then FileDialog.ImagesOrAllFilter
            else FileDialog.AllOrImagesFilter in
          handle <- gets (fun w => make_weak (_shownUserGuard w)) ;;
          emit (GetOpenPaths filter) ;;
          modify (fun w =>
            set_dialogs
              (dialogs w ++
                 [{| guard := handle;
                     captured_override := overrideSendImagesAsPhotos;
                     opened_under := user |}])
              w)
      end
  end.

(** ** [ReplyArea::initActions]: the subscriptions *)

(** [_controls->cancelRequests()]. *)
Definition on_cancelRequests : M unit :=
  emit unfocusReply.

(** [_controls->sendRequests()]. *)
Definition on_sendRequests (options : Api.SendOptions) : M unit :=
  send options.

(** [_controls->sendVoiceRequests()]. *)
Definition on_sendVoiceRequests (data : VoiceToSend) : M unit :=
  sendVoice data.

(** [_controls->attachRequests()]: the [rpl::filter] predicate. *)
Definition attachRequests_filter (w : World) : bool :=
  negb (_choosingAttach w).

(** [_controls->attachRequests()]: filter, then the handler, which
    queues [chooseAttach(overrideCompress)] on a timer. *)
Definition on_attachRequests (overrideCompress : option bool) : M unit :=
  pass <- gets attachRequests_filter ;;
  if pass : bool then
    modify (set_choosingAttach true) ;;
    emit (call_delayed overrideCompress) ;;
    modify (fun w => set_delayed (delayed w ++ [overrideCompress]) w)
  else
    ret tt.

(** [_controls->fileChosen()]. *)
Definition on_fileChosen (data : ChatHelpers.FileChosen) : M unit :=
  emit hideLayer.

(** [_controls->photoChosen()]. *)
Definition on_photoChosen (chosen : ChatHelpers.PhotoChosen) : M unit :=
  ret tt.

(** [_controls->inlineResultChosen()]. *)
Definition on_inlineResultChosen (chosen : ChatHelpers.InlineChosen)
  : M unit :=
  ret tt.

(** [_controls->setMimeDataHook(...)]: the hook.  [MimeAction] has the
    two enumerators, so [Unexpected] is not reached. *)
Definition mimeDataHook (data : QMimeData) (action : Ui.MimeAction)
  : M bool :=
  match action with
  | Ui.Check => ret false
  | Ui.Insert => ret false
  end.

(** [_controls->lockShowStarts()]. *)
Definition on_lockShowStarts : M unit :=
  ret tt.

(** [ReplyArea::showPremiumToast]: an empty body. *)
Definition showPremiumToast (emoji : N) : M unit :=
  ret tt.

(** [ReplyArea::show]. *)
Definition show (data : ReplyAreaData) : M unit :=
  current <- gets _data ;;
  if ReplyAreaData_eqb current data then
    ret tt
  else
    let userChanged := negb (UserPtr_opt_eqb (user current) (user data)) in
    modify (set_data data) ;;
    if negb userChanged then
      d <- gets _data ;;
      match user d with
      | Some _ => controls_do_clear
      | None => ret tt
      end
    else
      modify (fun w =>
        set_shownUserGuard (invalidate_weak_ptrs (_shownUserGuard w)) w) ;;
      let user := user data in
      let history := option_map owner_history user in
      controls_do_setHistory history ;;
      controls_do_clear.

(** ** The event loop *)

(** What can happen to the object from outside: the signals of the
    compose controls, the timer and the file dialog reporting back,
    the send-files box being confirmed, the controller calling [show],
    and the user typing into the field. *)
Inductive Input :=
  | cancelRequests
  | sendRequests (options : Api.SendOptions)
  | sendVoiceRequests (data : VoiceToSend)
  | attachRequests (overrideCompress : option bool)
  | fileChosen (data : ChatHelpers.FileChosen)
  | photoChosen (chosen : ChatHelpers.PhotoChosen)
  | inlineResultChosen (chosen : ChatHelpers.InlineChosen)
  | mimeData (data : QMimeData) (action : Ui.MimeAction)
  | lockShowStarts
  | timerFired (n : nat)
  | dialogClosed (n : nat) (result : FileDialog.OpenResult)
  | boxConfirmed (list : Ui.PreparedList) (way : Ui.SendFilesWay)
      (caption : TextWithTags) (options : Api.SendOptions)
      (ctrlShiftEnter : bool)
  | showCalled (data : ReplyAreaData)
  | fieldEdited (t : TextWithTags).

(** The [n]-th pending [call_delayed] callback runs. *)
Definition on_timerFired (n : nat) : M unit :=
  pending <- gets delayed ;;
  match nth_error pending n with
  | None => ret tt
  | Some overrideCompress =>
      modify (set_delayed (remove_nth n pending)) ;;
      chooseAttach overrideCompress
  end.

(** The [n]-th open file dialog reports: [crl::guard] runs the
    callback only while its handle is live.  A cancelled dialog is the
    empty result, on which the callback returns at once. *)
Definition on_dialogClosed (n : nat) (result : FileDialog.OpenResult)
  : M unit :=
  open <- gets dialogs ;;
  match nth_error open n with
  | None => ret tt
  | Some dialog =>
      modify (set_dialogs (remove_nth n open)) ;;
      object <- gets _shownUserGuard ;;
      if alive (guard dialog) object then
        chooseAttach_callback (captured_override dialog) result
      else
        ret tt
  end.

Definition step (i : Input) : M unit :=
  match i with
  | cancelRequests => on_cancelRequests
  | sendRequests options => on_sendRequests options
  | sendVoiceRequests data => on_sendVoiceRequests data
  | attachRequests overrideCompress => on_attachRequests overrideCompress
  | fileChosen data => on_fileChosen data
  | photoChosen chosen => on_photoChosen chosen
  | inlineResultChosen chosen => on_inlineResultChosen chosen
  | mimeData data action => _ <- mimeDataHook data action ;; ret tt
  | lockShowStarts => on_lockShowStarts
  | timerFired n => on_timerFired n
  | dialogClosed n result => on_dialogClosed n result
  | boxConfirmed list way caption options ctrlShiftEnter =>
      sendingFilesConfirmed list way caption options ctrlShiftEnter
  | showCalled data => show data
  | fieldEdited t =>
      modify (fun w => set_controls (HistoryView.setText t (_controls w)) w)
  end.

Fixpoint run (inputs : list Input) : M unit :=
  match inputs with
  | [] => ret tt
  | i :: rest => step i ;; run rest
  end.

(** A world the object can be in: some inputs lead there from the
    constructor without a contract violation. *)
Definition reachable (w : World) : Prop :=
  exists inputs, run inputs constructed = Done tt w.

End ReplyArea.

(** ** A concrete set of collaborators

    Used to run the model on explicit inputs: user 7 is restricted from
    writing and from sending files, every other user is not; files are
    prepared without error, one group per list. *)
Module Sample.

Definition restricted (u : UserPtr) : bool := N.eqb u 7.

Definition restricted_opt (peer : option UserPtr) : bool :=
  match peer with Some u => restricted u | None => false end.

Definition prepared (paths : QStringList) : Ui.PreparedList :=
  {| Ui.error := Ui.Error.None;
     Ui.errorData := "";
     Ui.files := map (fun p => {| Ui.path := p; Ui.size := 1024%Z |}) paths;
     Ui.filesToProcess := [];
     Ui.overrideSendImagesAsPhotos := None |}.

#[local] Instance collaborators : Collaborators := {|
  owner_history := fun u => (1000 + u)%N;
  user_id := fun u => Z.of_N u;
  slowmodeApplied := fun _ => false;
  session_premium := fun _ => false;
  GetErrorTextForSending := fun peer _ _ =>
    if restricted_opt peer then "You can't write to this user." else "";
  FileRestrictionError := fun peer _ _ =>
    if restricted_opt peer then Some "You can't send media to this user."
    else None;
  AnyFileRestrictionError := fun u =>
    if restricted u then Some "You can't send media to this user."
    else None;
  PrepareMediaList := fun paths _ => prepared paths;
  PrepareMediaFromImage := fun _ _ => prepared ["image.png"];
  Images_Read := fun _ =>
    {| image := {| isNull := true; pixels := 0 |}; animated := false |};
  DivideByGroups := fun list _ _ =>
    [{| Ui.list := list; Ui.type := Ui.AlbumType.None |}];
  sentWithCaption := fun _ => true;
  confirmMediaEdit := fun _ => false;
  lng_send_image_empty := fun name =>
    String.append "Could not send an empty file: " name;
  lng_forward_send_files_cant := "Sorry, no way to send media here."
|}.

Definition story (u : UserPtr) (n : StoryId) : ReplyAreaData :=
  {| user := Some u; id := n |}.
Arguments story u%_N n%_Z.

Definition no_story (n : StoryId) : ReplyAreaData :=
  {| user := None; id := n |}.
Arguments no_story n%_Z.

Definition plain (s : QString) : TextWithTags :=
  {| text := s; tags := [] |}.

(** A dropped picture file. *)
Definition dropped_picture : QMimeData :=
  {| hasImage := false;
     mimeUrls := ["/home/user/cat.png"];
     mimeImage := {| isNull := true; pixels := 0 |};
     mimeContent := "";
     mimeText := "" |}.

Definition sticker : ChatHelpers.FileChosen :=
  {| ChatHelpers.document := 5;
     ChatHelpers.file_options := Api.SendOptions_default |}.

Definition picture : ChatHelpers.PhotoChosen :=
  {| ChatHelpers.photo := 6;
     ChatHelpers.photo_options := Api.SendOptions_default |}.

Definition inline_gif : ChatHelpers.InlineChosen :=
  {| ChatHelpers.result := 8;
     ChatHelpers.bot := 9;
     ChatHelpers.inline_options := Api.SendOptions_default |}.

End Sample.

(** The effects logged between two worlds. *)
Definition logged_since (before after : World) : list Effect :=
  skipn (List.length (log before)) (log after).

(** Something was handed to the session-level messaging API. *)
Definition hands_to_session (before after : World) : bool :=
  existsb is_session_send (logged_since before after).

(** In the spec's words, a payload that "contains sendable files": it
    names files or carries an image. *)
Definition containsSendableFiles (data : QMimeData) : bool :=
  negb (is_nil (mimeUrls data)) || negb (isNull (mimeImage data)).

(** The world after feeding [inputs] to a freshly constructed object
    that uses the sample collaborators. *)
Definition after (inputs : list Input) : World :=
  match run (collaborators := Sample.collaborators) inputs constructed with
  | Done _ w => w
  | Violation _ => constructed
  end.

(** Worlds used in the concrete runs below. *)

(** User 1 is shown. *)
Definition world_shown : World :=
  after [showCalled (Sample.story 1 42)].

(** User 1 is shown and "hi" has been typed. *)
Definition world_typing : World :=
  after [showCalled (Sample.story 1 42); fieldEdited (Sample.plain "hi")].

(** The restricted user 7 is shown and "hello" has been typed. *)
Definition world_restricted : World :=
  after [showCalled (Sample.story 7 42); fieldEdited (Sample.plain "hello")].

(** No story with a user has been shown, "draft" has been typed. *)
Definition world_draft : World :=
  after [fieldEdited (Sample.plain "draft")].

(** No user; an attach request has been accepted. *)
Definition world_waiting : World :=
  after [attachRequests None].

(** No user; an attach request has been accepted and its timer fired. *)
Definition world_flag_up : World :=
  after [attachRequests None; timerFired 0].

(** User 1 is shown and a file dialog is open. *)
Definition world_dialog : World :=
  after [showCalled (Sample.story 1 42); attachRequests None; timerFired 0].

(** The dialog that is open in [world_dialog]. *)
Definition dialog_of_user_1 : OpenDialog :=
  {| guard := 1; captured_override := None; opened_under := 1%N |}.

(** A list refused for its size: one file of 5 GB. *)
Definition too_large : Ui.PreparedList :=
  {| Ui.error := Ui.Error.TooLargeFile;
     Ui.errorData := "";
     Ui.files := [{| Ui.path := "/home/user/film.mkv";
                     Ui.size := 5000000000%Z |}];
     Ui.filesToProcess := [];
     Ui.overrideSendImagesAsPhotos := None |}.

(** ** Invariants of the event loop *)

(** Two worlds that agree on everything but the log and the contents of
    the input field. *)
Definition same_core (w w' : World) : Prop :=
  _data w' = _data w
  /\ _shownUserGuard w' = _shownUserGuard w
  /\ _choosingAttach w' = _choosingAttach w
  /\ delayed w' = delayed w
  /\ dialogs w' = dialogs w
  /\ HistoryView.history (_controls w') = HistoryView.history (_controls w).

(** A computation that can only log and edit the input field. *)
Definition keeps_core {A} (c : M A) : Prop :=
  forall w a w', c w = Done a w' -> same_core w w'.

(** At most one delayed [chooseAttach] is waiting, and while one is,
    the flag is up. *)
Definition one_chooser_pending (w : World) : Prop :=
  List.length (delayed w) <= 1
  /\ (delayed w <> [] -> _choosingAttach w = true).

(** The handle of a dialog never runs ahead of the object, and while it
    is live the current user is the one the dialog was opened for. *)
Definition handle_tracks_user (d : OpenDialog) (w : World) : Prop :=
  guard d <= _shownUserGuard w
  /\ (alive (guard d) (_shownUserGuard w) = true ->
      user (_data w) = Some (opened_under d)).

(** The compose controls target the history of the stored user. *)
Definition history_follows_user {collaborators : Collaborators} (w : World)
  : Prop :=
  HistoryView.history (_controls w)
  = option_map owner_history (user (_data w)).

(** The flag is up and no delayed call is left to take it down. *)
Definition attach_stuck (w : World) : Prop :=
  _choosingAttach w = true /\ delayed w = [].

(** The [n]-th open dialog reports and its callback is skipped. *)
Definition dialog_dropped (n : nat) (w : World) : World :=
  set_dialogs (remove_nth n (dialogs w)) w.

(** *** The event loop, seen through the members it guards with

    Every input moves the flag, the two queues, the stored record, the
    weak handle and the target history in one of these ways. *)

(** The stored record, the weak handle and the target history agree. *)
Definition same_shown (w w' : World) : Prop :=
  _data w' = _data w
  /\ _shownUserGuard w' = _shownUserGuard w
  /\ HistoryView.history (_controls w') = HistoryView.history (_controls w).

Inductive core_step {collaborators : Collaborators} (w w' : World) : Prop :=
  (* logging and editing only *)
  | core_same :
      same_core w w' ->
      core_step w w'
  (* an attach request passes the filter *)
  | core_attach_accepted (overrideCompress : option bool) :
      _choosingAttach w = false ->
      _choosingAttach w' = true ->
      delayed w' = delayed w ++ [overrideCompress] ->
      dialogs w' = dialogs w ->
      same_shown w w' ->
      core_step w w'
  (* the delayed call runs without a user *)
  | core_timer_no_user (n : nat) (overrideCompress : option bool) :
      nth_error (delayed w) n = Some overrideCompress ->
      user (_data w) = None ->
      delayed w' = remove_nth n (delayed w) ->
      _choosingAttach w' = _choosingAttach w ->
      dialogs w' = dialogs w ->
      same_shown w w' ->
      core_step w w'
  (* the delayed call runs with a user: the flag goes down and, unless
     the user is restricted, a dialog is requested *)
  | core_timer_user (n : nat) (overrideCompress : option bool)
        (u : UserPtr) (requested : list OpenDialog) :
      nth_error (delayed w) n = Some overrideCompress ->
      user (_data w) = Some u ->
      delayed w' = remove_nth n (delayed w) ->
      _choosingAttach w' = false ->
      dialogs w' = dialogs w ++ requested ->
      (requested = []
       \/ requested = [{| guard := make_weak (_shownUserGuard w);
                          captured_override := overrideCompress;
                          opened_under := u |}]) ->
      same_shown w w' ->
      core_step w w'
  (* a dialog reports *)
  | core_dialog_closed (n : nat) :
      dialogs w' = remove_nth n (dialogs w) ->
      _choosingAttach w' = _choosingAttach w ->
      delayed w' = delayed w ->
      same_shown w w' ->
      core_step w w'
  (* [show] with the same user *)
  | core_show_same_user :
      user (_data w') = user (_data w) ->
      _shownUserGuard w' = _shownUserGuard w ->
      HistoryView.history (_controls w') = HistoryView.history (_controls w) ->
      _choosingAttach w' = _choosingAttach w ->
      delayed w' = delayed w ->
      dialogs w' = dialogs w ->
      core_step w w'
  (* [show] with another user *)
  | core_show_other_user :
      user (_data w') <> user (_data w) ->
      _shownUserGuard w' = invalidate_weak_ptrs (_shownUserGuard w) ->
      HistoryView.history (_controls w')
      = option_map owner_history (user (_data w')) ->
      _choosingAttach w' = _choosingAttach w ->
      delayed w' = delayed w ->
      dialogs w' = dialogs w ->
      core_step w w'.

(** ** What reaches the session API *)

(** The send action carried by a call on the session API. *)
Definition action_of (e : Effect) : option Api.SendAction :=
  match e with
  | api_sendMessage message => Some (Api.action message)
  | api_sendVoiceMessage _ action
  | api_sendFile _ _ action
  | api_sendFiles _ _ _ _ action => Some action
  | _ => None
  end.

(** The text carried by a call on the session API. *)
Definition caption_of (e : Effect) : option TextWithTags :=
  match e with
  | api_sendMessage message => Some (Api.textWithTags message)
  | api_sendFiles _ _ caption _ _ => Some caption
  | _ => None
  end.

(** The texts that are not empty, in the order they are sent. *)
Fixpoint captions_sent (es : list Effect) : list TextWithTags :=
  match es with
  | [] => []
  | e :: rest =>
      match caption_of e with
      | Some caption =>
          if isEmpty (text caption) then captions_sent rest
          else caption :: captions_sent rest
      | None => captions_sent rest
      end
  end.

(** The action replies to the story of record [d]: it targets the
    history of the user of [d] and its reply target is that user and
    the story of [d]. *)
Definition replies_to_story {collaborators : Collaborators}
    (d : ReplyAreaData) (a : Api.SendAction) : bool :=
  match user d with
  | Some u =>
      N.eqb (Api.history a) (owner_history u)
      && Z.eqb (Api.peer (Api.storyId (Api.replyTo a))) (user_id u)
      && Z.eqb (Api.story (Api.storyId (Api.replyTo a))) (id d)
  | None => false
  end.

(** An effect that is either no call on the session API or one that
    replies to the story of [d]. *)
Definition sent_for {collaborators : Collaborators}
    (d : ReplyAreaData) (e : Effect) : bool :=
  match action_of e with
  | Some a => replies_to_story d a
  | None => true
  end.

(** A computation that keeps the stored record and logs only effects
    that are fine by [sent_for]. *)
Definition replies_only {collaborators : Collaborators} {A} (c : M A)
  : Prop :=
  forall w a w',
    c w = Done a w' ->
    _data w' = _data w
    /\ exists es,
         log w' = log w ++ es
         /\ forallb (sent_for (_data w)) es = true.

(** A computation that changes nothing but the log and calls nothing
    on the session API. *)
Definition quiet {A} (c : M A) : Prop :=
  forall w a w',
    c w = Done a w' ->
    exists es,
      w' = set_log (log w ++ es) w
      /\ existsb is_session_send es = false.

(** The send-files box among the notifications. *)
Definition is_SendFilesBox (e : Effect) : bool :=
  match e with show_SendFilesBox _ => true | _ => false end.

(** The call of [sendFiles] for one group. *)
Definition sendFiles_call
    (type : SendMediaType) (action : Api.SendAction)
    (caption : TextWithTags) (group : Ui.PreparedGroup) : Effect :=
  api_sendFiles (Ui.list group) type caption
    (negb (Ui.AlbumType.is_None (Ui.type group))) action.

(** The calls of [sendFiles] for a list of groups: the caption goes
    with the first. *)
Definition sendFiles_calls
    (type : SendMediaType) (action : Api.SendAction)
    (caption : TextWithTags) (groups : list Ui.PreparedGroup)
  : list Effect :=
  match groups with
  | [] => []
  | group :: rest =>
      sendFiles_call type action caption group
      :: map (sendFiles_call type action TextWithTags_empty) rest
  end.

(** A voice note, a list of two files and a list without error, for
    the concrete runs. *)
Definition voice_note : VoiceToSend :=
  {| bytes := "opus";
     waveform := [1%Z; 2%Z; 3%Z];
     duration := 3%Z;
     voice_options := Api.SendOptions_default |}.

Definition two_files : Ui.PreparedList :=
  Sample.prepared ["/home/user/a.png"; "/home/user/b.png"].

Definition as_files : Ui.SendFilesWay :=
  {| Ui.sendImagesAsPhotos := false; Ui.groupFiles := true |}.

Definition chosen_paths : FileDialog.OpenResult :=
  {| FileDialog.paths := ["/home/user/a.png"];
     FileDialog.remoteContent := "" |}.

Definition remote_blob : FileDialog.OpenResult :=
  {| FileDialog.paths := [];
     FileDialog.remoteContent := "blob" |}.

(** More inputs and worlds for the concrete runs. *)

Definition look : TextWithTags := Sample.plain "look".


(** A dialog that was cancelled. *)
Definition cancelled : FileDialog.OpenResult :=
  {| FileDialog.paths := []; FileDialog.remoteContent := "" |}.

(** The list prepared from [chosen_paths]. *)
Definition picked_list : Ui.PreparedList :=
  Sample.prepared ["/home/user/a.png"].

(** The list prepared from the dropped picture. *)
Definition dropped_list : Ui.PreparedList :=
  Sample.prepared ["/home/user/cat.png"].

(** User 1 is shown and the send-files box is open for [l]. *)
Definition world_box (l : Ui.PreparedList) : World :=
  set_log
    (log world_shown ++
       [show_SendFilesBox
          {| box_list := l;
             box_caption := TextWithTags_empty;
             box_peer := Some 1%N;
             box_insertTextOnCancel := "" |}])
    world_shown.

(** The reply "hi" to story 42 of user 1. *)
Definition message_hi : Api.MessageToSend :=
  {| Api.action :=
       {| Api.history := 1001%N;
          Api.options := Api.SendOptions_default;
          Api.replyTo :=
            {| Api.msgId := 0%Z;
               Api.storyId := {| Api.peer := 1%Z; Api.story := 42%Z |} |};
          Api.clearDraft := true |};
     Api.textWithTags := Sample.plain "hi";
     Api.webPageId := 0%Z |}.

(** User 1 is shown, "hi" has been typed and sent. *)
Definition world_sent : World :=
  after [showCalled (Sample.story 1 42);
         fieldEdited (Sample.plain "hi");
         sendRequests Api.SendOptions_default].

(** * Properties *)

(** ** Equality of the stored record *)

Lemma isEmpty_true (s : QString) : isEmpty s = true <-> s = "".
Proof. destruct s; simpl; split; intros H; congruence. Qed.

Lemma isEmpty_false (s : QString) : isEmpty s = false <-> s <> "".
Proof. destruct s; simpl; split; intros H; congruence. Qed.

Lemma UserPtr_opt_eqb_eq (a b : option UserPtr) :
  UserPtr_opt_eqb a b = true <-> a = b.
Proof.
  destruct a as [x|], b as [y|]; simpl; split; intros E;
    try congruence; try reflexivity.
  - apply N.eqb_eq in E. congruence.
  - inversion E. apply N.eqb_refl.
Qed.

Lemma UserPtr_opt_eqb_neq (a b : option UserPtr) :
  UserPtr_opt_eqb a b = false <-> a <> b.
Proof.
  rewrite <- UserPtr_opt_eqb_eq.
  destruct (UserPtr_opt_eqb a b); split; congruence.
Qed.

Lemma ReplyAreaData_eqb_eq (a b : ReplyAreaData) :
  ReplyAreaData_eqb a b = true <-> a = b.
Proof.
  unfold ReplyAreaData_eqb.
  rewrite andb_true_iff, UserPtr_opt_eqb_eq, Z.eqb_eq.
  destruct a, b; simpl; split.
  - intros [-> ->]. reflexivity.
  - intros E. inversion E. split; reflexivity.
Qed.

Lemma ReplyAreaData_eqb_neq (a b : ReplyAreaData) :
  ReplyAreaData_eqb a b = false <-> a <> b.
Proof.
  rewrite <- ReplyAreaData_eqb_eq.
  destruct (ReplyAreaData_eqb a b); split; congruence.
Qed.

Lemma ReplyAreaData_eqb_refl (a : ReplyAreaData) :
  ReplyAreaData_eqb a a = true.
Proof. apply ReplyAreaData_eqb_eq. reflexivity. Qed.

(** Setting the members to what they already are gives the same world. *)
Lemma set_data_same (w : World) : set_data (_data w) w = w.
Proof. destruct w; reflexivity. Qed.

Lemma set_log_same (w : World) : set_log (log w) w = w.
Proof. destruct w; reflexivity. Qed.

Lemma last_cons {A} (x d : A) (l : list A) : last (x :: l) d = last l x.
Proof.
  revert x d. induction l as [|y l IH]; intros x d; [reflexivity|].
  change (last (x :: y :: l) d) with (last (y :: l) d).
  rewrite (IH y d), (IH y x). reflexivity.
Qed.

Lemma logged_since_app (w : World) (es : list Effect) (w' : World) :
  log w' = log w ++ es -> logged_since w w' = es.
Proof.
  intros E. unfold logged_since. rewrite E.
  rewrite skipn_app, skipn_all, Nat.sub_diag. reflexivity.
Qed.

(** The monad's primitives, unfolded. *)
Ltac unfold_M :=
  cbv beta iota delta
    [bind ret gets modify emit when violation
     getTextWithAppliedMarkdown controls_do_clear controls_do_setHistory
     session finishSending files_back] in *.

Section Properties.

Context {collaborators : Collaborators}.

(** ** [show] *)

(** C10: calling [show] with the record that is already stored returns
    at once: the stored record, the compose controls (input text and
    history), the weak handle and everything else stay as they are, and
    no collaborator is called. *)
Theorem show_same_data_is_noop :
  forall w : World, show (_data w) w = Done tt w.
Proof.
  intros w. unfold show. unfold_M.
  rewrite ReplyAreaData_eqb_refl. reflexivity.
Qed.

(** What [show] does with a record that differs from the stored one, by
    the three paths of the source. *)
Lemma show_user_changed (w : World) (data : ReplyAreaData) :
  user data <> user (_data w) ->
  show data w =
    Done tt
      (set_controls
         (HistoryView.clear
            (HistoryView.setHistory
               (option_map owner_history (user data)) (_controls w)))
         (set_log
            (log w ++
               [controls_setHistory (option_map owner_history (user data));
                controls_clear])
            (set_shownUserGuard (invalidate_weak_ptrs (_shownUserGuard w))
               (set_data data w)))).
Proof.
  intros Hu. unfold show. unfold_M.
  assert (Hd : ReplyAreaData_eqb (_data w) data = false).
  { apply ReplyAreaData_eqb_neq. intros E. apply Hu. rewrite E. reflexivity. }
  assert (Hn : UserPtr_opt_eqb (user (_data w)) (user data) = false).
  { apply UserPtr_opt_eqb_neq. congruence. }
  rewrite Hd, Hn. simpl. unfold set_log; simpl.
  rewrite <- app_assoc. reflexivity.
Qed.

Lemma show_same_user (w : World) (data : ReplyAreaData) (u : UserPtr) :
  data <> _data w ->
  user data = user (_data w) ->
  user data = Some u ->
  show data w =
    Done tt
      (set_controls (HistoryView.clear (_controls w))
         (set_log (log w ++ [controls_clear]) (set_data data w))).
Proof.
  intros Hd Hu Hs. unfold show. unfold_M.
  assert (Hd' : ReplyAreaData_eqb (_data w) data = false).
  { apply ReplyAreaData_eqb_neq. congruence. }
  assert (Hn : UserPtr_opt_eqb (user (_data w)) (user data) = true).
  { apply UserPtr_opt_eqb_eq. congruence. }
  rewrite Hd', Hn. simpl. rewrite Hs. reflexivity.
Qed.

Lemma show_no_user (w : World) (data : ReplyAreaData) :
  data <> _data w ->
  user data = user (_data w) ->
  user data = None ->
  show data w = Done tt (set_data data w).
Proof.
  intros Hd Hu Hs. unfold show. unfold_M.
  assert (Hd' : ReplyAreaData_eqb (_data w) data = false).
  { apply ReplyAreaData_eqb_neq. congruence. }
  assert (Hn : UserPtr_opt_eqb (user (_data w)) (user data) = true).
  { apply UserPtr_opt_eqb_eq. congruence. }
  rewrite Hd', Hn. simpl. rewrite Hs. reflexivity.
Qed.

(** ** The chosen-item subscriptions and the mime hook *)

(** C2, as the code has it: a chosen sticker or GIF only hides the
    layer, a chosen photo and a chosen inline result do nothing; in no
    case is anything handed to the session API, and the state of the
    object is left as it was. *)
Theorem chosen_items_are_not_sent :
  forall (w : World) (data : ChatHelpers.FileChosen)
         (chosen : ChatHelpers.PhotoChosen)
         (inline : ChatHelpers.InlineChosen),
    on_fileChosen data w = Done tt (set_log (log w ++ [hideLayer]) w)
    /\ on_photoChosen chosen w = Done tt w
    /\ on_inlineResultChosen inline w = Done tt w.
Proof.
  intros w data chosen inline. repeat split.
Qed.

(** C3, as the code has it: for every payload and both actions the hook
    answers [false] and does nothing else; [Check] does not look at the
    payload and [Insert] does not reach [confirmSendingFiles]. *)
Theorem mimeDataHook_declines :
  forall (w : World) (data : QMimeData) (action : Ui.MimeAction),
    mimeDataHook data action w = Done false w.
Proof.
  intros w data [|]; reflexivity.
Qed.

(** ** Sending *)

(** The action [prepareSendAction] builds for user [u]. *)
Lemma prepareSendAction_run (w : World) (u : UserPtr)
    (options : Api.SendOptions) :
  user (_data w) = Some u ->
  prepareSendAction options w =
    Done
      {| Api.history := owner_history u;
         Api.options :=
           {| Api.sendAs := HistoryView.sendAsPeer (_controls w);
              Api.scheduled := Api.scheduled options;
              Api.silent := Api.silent options |};
         Api.replyTo :=
           {| Api.msgId := 0%Z;
              Api.storyId :=
                {| Api.peer := user_id u; Api.story := id (_data w) |} |};
         Api.clearDraft := true |}
      w.
Proof.
  intros Hu. unfold prepareSendAction. unfold_M. rewrite Hu. reflexivity.
Qed.

(** [send], step by step, with a user set. *)
Lemma send_run (w : World) (u : UserPtr) (options : Api.SendOptions) :
  user (_data w) = Some u ->
  forall action error,
    prepareSendAction options w = Done action w ->
    error = GetErrorTextForSending (Some u) (HistoryView.field (_controls w))
              (negb (Z.eqb (Api.scheduled options) 0)) ->
    send options w =
      Done tt
        (set_controls (HistoryView.clear (_controls w))
           (set_log
              (log w ++
                 (if isEmpty error then [] else [showToast error]) ++
                 [api_sendMessage
                    {| Api.action := action;
                       Api.textWithTags := HistoryView.field (_controls w);
                       Api.webPageId := HistoryView.webPageId (_controls w) |};
                  controls_clear;
                  controls_hidePanelsAnimated;
                  wrap_setFocus])
              w)).
Proof.
  intros Hu action error Hact ->.
  unfold send. unfold_M. rewrite Hact. simpl. rewrite Hu.
  destruct (isEmpty _); simpl; rewrite Hu;
    unfold set_log, set_controls; simpl;
    repeat rewrite <- app_assoc; reflexivity.
Qed.

(** C8: with a user set, [send] builds a send action for that user's
    history whose reply target is the current story, hands the message
    with the composed text to the session API, then clears the input
    widget, hides the panels and gives the focus back to the viewer
    wrap.  The only thing that may come before is the toast of the
    validation check. *)
Theorem send_replies_to_current_story :
  forall (w : World) (u : UserPtr) (options : Api.SendOptions),
    user (_data w) = Some u ->
    exists (message : Api.MessageToSend) (toast : list Effect),
      send options w =
        Done tt
          (set_controls (HistoryView.clear (_controls w))
             (set_log
                (log w ++ toast ++
                   [api_sendMessage message;
                    controls_clear;
                    controls_hidePanelsAnimated;
                    wrap_setFocus])
                w))
      /\ Api.history (Api.action message) = owner_history u
      /\ Api.storyId (Api.replyTo (Api.action message))
         = {| Api.peer := user_id u; Api.story := id (_data w) |}
      /\ Api.textWithTags message = HistoryView.field (_controls w)
      /\ Api.webPageId message = HistoryView.webPageId (_controls w)
      /\ existsb is_session_send toast = false.
Proof.
  intros w u options Hu.
  do 2 eexists. split.
  - apply (send_run w u options Hu _ _
             (prepareSendAction_run w u options Hu) eq_refl).
  - repeat split. destruct (isEmpty _); reflexivity.
Qed.

(** [send] when the validation check yields a message: the toast is
    shown and the message is handed to the session API all the same. *)
Lemma send_with_error (w : World) (u : UserPtr) (options : Api.SendOptions) :
  user (_data w) = Some u ->
  GetErrorTextForSending (Some u) (HistoryView.field (_controls w))
    (negb (Z.eqb (Api.scheduled options) 0)) <> "" ->
  exists w',
    send options w = Done tt w'
    /\ hands_to_session w w' = true
    /\ HistoryView.field (_controls w') = TextWithTags_empty.
Proof.
  intros Hu He.
  eexists. split.
  - apply (send_run w u options Hu _ _
             (prepareSendAction_run w u options Hu) eq_refl).
  - split; [|reflexivity].
    unfold hands_to_session.
    erewrite logged_since_app by (simpl; reflexivity).
    rewrite existsb_app. simpl. apply orb_true_r.
Qed.

(** ** Errors about files *)

(** C7: [showSendingFilesError] answers [false] exactly when there is
    neither a restriction error for the recipient nor an error in the
    list, and then shows nothing.  Otherwise it answers [true] after one
    notification: a toast with the restriction error if there is one;
    else the file-size-limit box, built from the size of the last file,
    for [TooLargeFile]; else a toast for an empty file, a directory or
    a non-local URL.  The texts of the collaborators are taken to be
    real messages (not empty, not the "(toolarge)" marker), and a list
    with [TooLargeFile] to name the file. *)
Theorem showSendingFilesError_reports :
  forall (w : World) (prepared : Ui.PreparedList) (compress : option bool)
         (u : UserPtr),
    user (_data w) = Some u ->
    (forall e, FileRestrictionError (Some u) prepared compress = Some e ->
               e <> "" /\ e <> "(toolarge)") ->
    lng_send_image_empty (Ui.errorData prepared) <> "" ->
    lng_send_image_empty (Ui.errorData prepared) <> "(toolarge)" ->
    (Ui.error prepared = Ui.Error.TooLargeFile -> Ui.files prepared <> []) ->
    exists (shown : bool) (notes : list Effect),
      showSendingFilesError prepared compress w
        = Done shown (set_log (log w ++ notes) w)
      /\ (shown = false <->
            FileRestrictionError (Some u) prepared compress = None
            /\ Ui.error prepared = Ui.Error.None)
      /\ (shown = false -> notes = [])
      /\ (shown = true ->
            notes =
              [match FileRestrictionError (Some u) prepared compress,
                     Ui.error prepared with
               | Some e, _ => showToast e
               | None, Ui.Error.TooLargeFile =>
                   showBox_FileSizeLimitBox
                     (Ui.size
                        (last (Ui.files prepared)
                           {| Ui.path := ""; Ui.size := 0 |}))
               | None, _ =>
                   showToast (lng_send_image_empty (Ui.errorData prepared))
               end]).
Proof.
  intros w prepared compress u Hu Hrestr Hne Hnm Hfiles.
  unfold showSendingFilesError, sendingFilesErrorText. unfold_M.
  rewrite Hu.
  destruct (FileRestrictionError (Some u) prepared compress) as [e|] eqn:Er.
  - destruct (Hrestr e eq_refl) as [He Hm].
    apply isEmpty_false in He. rewrite He.
    apply String.eqb_neq in Hm. rewrite Hm.
    exists true, [showToast e]. repeat split; try congruence.
    intros [? _]. congruence.
  - destruct (Ui.error prepared) eqn:Ee.
    + exists false, []. simpl. rewrite app_nil_r, set_log_same.
      repeat split; congruence.
    + apply isEmpty_false in Hne. rewrite Hne.
      apply String.eqb_neq in Hnm. rewrite Hnm.
      eexists true, _. repeat split; try congruence.
      intros [_ ?]. congruence.
    + apply isEmpty_false in Hne. rewrite Hne.
      apply String.eqb_neq in Hnm. rewrite Hnm.
      eexists true, _. repeat split; try congruence.
      intros [_ ?]. congruence.
    + apply isEmpty_false in Hne. rewrite Hne.
      apply String.eqb_neq in Hnm. rewrite Hnm.
      eexists true, _. repeat split; try congruence.
      intros [_ ?]. congruence.
    + simpl. destruct (Ui.files prepared) as [|f rest] eqn:Ef.
      { exfalso. apply (Hfiles eq_refl). reflexivity. }
      rewrite Hu. eexists true, _. rewrite last_cons.
      repeat split; try congruence.
      intros [_ ?]. congruence.
Qed.

(** The two sibling paths of [send] stop after showing the error. *)
Lemma sendingFilesConfirmed_stops_on_error
    (w w' : World) (list : Ui.PreparedList) (way : Ui.SendFilesWay)
    (caption : TextWithTags) (options : Api.SendOptions)
    (ctrlShiftEnter : bool) :
  Ui.filesToProcess list = [] ->
  showSendingFilesError list (Some (Ui.sendImagesAsPhotos way)) w
    = Done true w' ->
  sendingFilesConfirmed list way caption options ctrlShiftEnter w
    = Done tt w'.
Proof.
  intros Hp Hs. unfold sendingFilesConfirmed. rewrite Hp. simpl.
  unfold bind at 1. rewrite Hs. reflexivity.
Qed.

Lemma chooseAttach_stops_on_error
    (w : World) (u : UserPtr) (error : QString)
    (overrideSendImagesAsPhotos : option bool) :
  user (_data w) = Some u ->
  AnyFileRestrictionError u = Some error ->
  chooseAttach overrideSendImagesAsPhotos w
    = Done tt (set_log (log w ++ [showToast error])
                 (set_choosingAttach false w)).
Proof.
  intros Hu He. unfold chooseAttach. unfold_M. rewrite Hu, He. reflexivity.
Qed.

(** ** What each operation leaves alone *)

Lemma same_core_refl (w : World) : same_core w w.
Proof. unfold same_core. repeat split. Qed.

Lemma same_core_trans (w1 w2 w3 : World) :
  same_core w1 w2 -> same_core w2 w3 -> same_core w1 w3.
Proof.
  unfold same_core.
  intros (A1 & A2 & A3 & A4 & A5 & A6) (B1 & B2 & B3 & B4 & B5 & B6).
  repeat split; congruence.
Qed.

Lemma keeps_core_ret {A} (a : A) : keeps_core (ret a).
Proof. intros w b w' E. inversion E. apply same_core_refl. Qed.

Lemma keeps_core_violation {A} (what : string) :
  keeps_core (@violation A what).
Proof. intros w b w' E. discriminate E. Qed.

Lemma keeps_core_gets {A} (f : World -> A) : keeps_core (gets f).
Proof. intros w b w' E. inversion E. apply same_core_refl. Qed.

Lemma keeps_core_emit (e : Effect) : keeps_core (emit e).
Proof. intros w b w' E. inversion E. unfold same_core. repeat split. Qed.

Lemma keeps_core_bind {A B} (c : M A) (k : A -> M B) :
  keeps_core c -> (forall a, keeps_core (k a)) -> keeps_core (bind c k).
Proof.
  intros Hc Hk w b w'' E. unfold bind in E.
  destruct (c w) as [a w'|what] eqn:Ec; [|discriminate E].
  eapply same_core_trans; [eapply Hc|eapply Hk]; eassumption.
Qed.

Lemma keeps_core_when (b : bool) (c : M unit) :
  keeps_core c -> keeps_core (when b c).
Proof. intros Hc. destruct b; [exact Hc|apply keeps_core_ret]. Qed.

Lemma keeps_core_clear : keeps_core controls_do_clear.
Proof. intros w b w' E. inversion E. unfold same_core. repeat split. Qed.

Lemma keeps_core_setText (t : TextWithTags) :
  keeps_core
    (modify (fun w => set_controls (HistoryView.setText t (_controls w)) w)).
Proof. intros w b w' E. inversion E. unfold same_core. repeat split. Qed.

Create HintDb core_frame.
#[local] Hint Resolve keeps_core_ret keeps_core_violation keeps_core_gets
  keeps_core_emit keeps_core_when keeps_core_clear keeps_core_setText
  : core_frame.

(** Walk down a computation: binds, conditionals and matches. *)
Ltac frame_step :=
  match goal with
  | |- keeps_core (bind _ _) => apply keeps_core_bind; [|intros ?]
  | |- keeps_core (when _ _) => apply keeps_core_when
  | |- keeps_core (if ?b then _ else _) => destruct b
  | |- keeps_core (match ?x with _ => _ end) => destruct x
  | |- keeps_core _ => solve [auto with core_frame]
  end.

Ltac frame := cbv zeta; repeat frame_step.

Lemma keeps_core_session : keeps_core session.
Proof. unfold session. frame. Qed.

Lemma keeps_core_prepareSendAction (options : Api.SendOptions) :
  keeps_core (prepareSendAction options).
Proof. unfold prepareSendAction. frame. Qed.

Lemma keeps_core_finishSending : keeps_core finishSending.
Proof. unfold finishSending. frame. Qed.

#[local] Hint Resolve keeps_core_session keeps_core_prepareSendAction
  keeps_core_finishSending : core_frame.

Lemma keeps_core_send (options : Api.SendOptions) : keeps_core (send options).
Proof. unfold send, getTextWithAppliedMarkdown. frame. Qed.

Lemma keeps_core_sendVoice (data : VoiceToSend) : keeps_core (sendVoice data).
Proof. unfold sendVoice. frame. Qed.

Lemma keeps_core_uploadFile (content : QByteArray) (type : SendMediaType) :
  keeps_core (uploadFile content type).
Proof. unfold uploadFile. frame. Qed.

Lemma keeps_core_showSendingFilesError
    (prepared : Ui.PreparedList) (compress : option bool) :
  keeps_core (showSendingFilesError prepared compress).
Proof. unfold showSendingFilesError, files_back. frame. Qed.

#[local] Hint Resolve keeps_core_send keeps_core_sendVoice
  keeps_core_uploadFile keeps_core_showSendingFilesError : core_frame.

Lemma keeps_core_sendGroups
    (groups : list Ui.PreparedGroup) (type : SendMediaType)
    (caption : TextWithTags) (action : Api.SendAction) :
  keeps_core (sendGroups groups type caption action).
Proof.
  revert caption. induction groups as [|group rest IH]; intros caption.
  - apply keeps_core_ret.
  - simpl. frame.
Qed.

#[local] Hint Resolve keeps_core_sendGroups : core_frame.

Lemma keeps_core_sendingFilesConfirmed
    (prepared : Ui.PreparedList) (way : Ui.SendFilesWay)
    (caption : TextWithTags) (options : Api.SendOptions)
    (ctrlShiftEnter : bool) :
  keeps_core
    (sendingFilesConfirmed prepared way caption options ctrlShiftEnter).
Proof. unfold sendingFilesConfirmed. frame. Qed.

Lemma keeps_core_confirmSendingFiles_list
    (prepared : Ui.PreparedList) (insertTextOnCancel : QString) :
  keeps_core (confirmSendingFiles_list prepared insertTextOnCancel).
Proof.
  unfold confirmSendingFiles_list, showSendingFilesError_1,
    getTextWithAppliedMarkdown.
  frame.
Qed.

#[local] Hint Resolve keeps_core_sendingFilesConfirmed
  keeps_core_confirmSendingFiles_list : core_frame.

Lemma keeps_core_confirmSendingFiles_image
    (picture : QImage) (content : QByteArray)
    (overrideSendImagesAsPhotos : option bool)
    (insertTextOnCancel : QString) :
  keeps_core
    (confirmSendingFiles_image picture content overrideSendImagesAsPhotos
       insertTextOnCancel).
Proof. unfold confirmSendingFiles_image. frame. Qed.

#[local] Hint Resolve keeps_core_confirmSendingFiles_image : core_frame.

Lemma keeps_core_confirmSendingFiles
    (data : QMimeData) (overrideSendImagesAsPhotos : option bool)
    (insertTextOnCancel : QString) :
  keeps_core
    (confirmSendingFiles data overrideSendImagesAsPhotos insertTextOnCancel).
Proof. unfold confirmSendingFiles. frame. Qed.

Lemma keeps_core_chooseAttach_callback
    (overrideSendImagesAsPhotos : option bool)
    (result : FileDialog.OpenResult) :
  keeps_core (chooseAttach_callback overrideSendImagesAsPhotos result).
Proof. unfold chooseAttach_callback. frame. Qed.

(** The inputs that can only log and edit the field. *)
Lemma step_keeps_core (i : Input) :
  match i with
  | attachRequests _ | timerFired _ | dialogClosed _ _ | showCalled _ => True
  | _ => keeps_core (step i)
  end.
Proof.
  destruct i; simpl; try exact I;
    unfold on_cancelRequests, on_sendRequests, on_sendVoiceRequests,
      on_fileChosen, on_photoChosen, on_inlineResultChosen,
      on_lockShowStarts, mimeDataHook;
    frame.
Qed.

(** ** The four inputs that move the guarded members *)

Lemma on_attachRequests_filtered (w : World) (overrideCompress : option bool) :
  _choosingAttach w = true ->
  on_attachRequests overrideCompress w = Done tt w.
Proof.
  intros Hf. unfold on_attachRequests, attachRequests_filter. unfold_M.
  rewrite Hf. reflexivity.
Qed.

Lemma on_attachRequests_accepted (w : World) (overrideCompress : option bool) :
  _choosingAttach w = false ->
  on_attachRequests overrideCompress w
  = Done tt
      (set_delayed (delayed w ++ [overrideCompress])
         (set_log (log w ++ [call_delayed overrideCompress])
            (set_choosingAttach true w))).
Proof.
  intros Hf. unfold on_attachRequests, attachRequests_filter. unfold_M.
  rewrite Hf. reflexivity.
Qed.

Lemma chooseAttach_no_user (w : World) (overrideCompress : option bool) :
  user (_data w) = None ->
  chooseAttach overrideCompress w = Done tt w.
Proof.
  intros Hu. unfold chooseAttach. unfold_M. rewrite Hu. reflexivity.
Qed.

Lemma chooseAttach_opens_dialog
    (w : World) (u : UserPtr) (overrideCompress : option bool) :
  user (_data w) = Some u ->
  AnyFileRestrictionError u = None ->
  chooseAttach overrideCompress w
  = Done tt
      (set_dialogs
         (dialogs w ++
            [{| guard := make_weak (_shownUserGuard w);
                captured_override := overrideCompress;
                opened_under := u |}])
         (set_log
            (log w ++
               [GetOpenPaths
                  (if is_true overrideCompress
                   then FileDialog.ImagesOrAllFilter
                   else FileDialog.AllOrImagesFilter)])
            (set_choosingAttach false w))).
Proof.
  intros Hu He. unfold chooseAttach. unfold_M. rewrite Hu, He. reflexivity.
Qed.

Lemma on_timerFired_none (w : World) (n : nat) :
  nth_error (delayed w) n = None ->
  on_timerFired n w = Done tt w.
Proof.
  intros Hn. unfold on_timerFired. unfold_M. rewrite Hn. reflexivity.
Qed.

Lemma on_timerFired_some (w : World) (n : nat) (overrideCompress : option bool) :
  nth_error (delayed w) n = Some overrideCompress ->
  on_timerFired n w
  = chooseAttach overrideCompress
      (set_delayed (remove_nth n (delayed w)) w).
Proof.
  intros Hn. unfold on_timerFired. unfold_M. rewrite Hn. reflexivity.
Qed.

Lemma remove_nth_none {A} (n : nat) (l : list A) :
  nth_error l n = None -> remove_nth n l = l.
Proof.
  revert n. induction l as [|x l IH]; intros [|n] H; simpl in *;
    try reflexivity; try discriminate.
  rewrite (IH n H). reflexivity.
Qed.

Lemma on_dialogClosed_dead
    (w : World) (n : nat) (dialog : OpenDialog)
    (result : FileDialog.OpenResult) :
  nth_error (dialogs w) n = Some dialog ->
  alive (guard dialog) (_shownUserGuard w) = false ->
  on_dialogClosed n result w = Done tt (dialog_dropped n w).
Proof.
  intros Hn Ha. unfold on_dialogClosed. unfold_M.
  rewrite Hn. simpl. rewrite Ha. reflexivity.
Qed.

Lemma on_dialogClosed_core
    (w w' : World) (n : nat) (result : FileDialog.OpenResult) :
  on_dialogClosed n result w = Done tt w' ->
  same_core (dialog_dropped n w) w'.
Proof.
  unfold on_dialogClosed. unfold_M.
  destruct (nth_error (dialogs w) n) as [dialog|] eqn:Hn.
  - simpl.
    destruct (alive (guard dialog) (_shownUserGuard w)).
    + intros E. eapply keeps_core_chooseAttach_callback. exact E.
    + intros E. inversion E. apply same_core_refl.
  - intros E. inversion E. subst w'. unfold dialog_dropped.
    rewrite (remove_nth_none _ _ Hn).
    unfold same_core. repeat split.
Qed.

(** [show] with the stored record. *)
Lemma show_stored (w : World) (data : ReplyAreaData) :
  data = _data w -> show data w = Done tt w.
Proof.
  intros ->. unfold show. unfold_M.
  rewrite ReplyAreaData_eqb_refl. reflexivity.
Qed.

(** Every input is one of the moves of [core_step]. *)
Lemma step_is_core_step (i : Input) (w w' : World) :
  step i w = Done tt w' -> core_step w w'.
Proof.
  intros E.
  pose proof (step_keeps_core i) as K.
  destruct i; try (apply core_same; eapply K; exact E); clear K; simpl in E.
  - (* attachRequests *)
    destruct (_choosingAttach w) eqn:Hf.
    + rewrite (on_attachRequests_filtered _ _ Hf) in E. inversion E.
      apply core_same, same_core_refl.
    + rewrite (on_attachRequests_accepted _ _ Hf) in E. inversion E.
      eapply core_attach_accepted; try reflexivity; try assumption.
      unfold same_shown. repeat split.
  - (* timerFired *)
    destruct (nth_error (delayed w) n) as [o|] eqn:Hn.
    + rewrite (on_timerFired_some _ _ _ Hn) in E.
      destruct (user (_data w)) as [u|] eqn:Hu.
      * destruct (AnyFileRestrictionError u) as [error|] eqn:He.
        -- rewrite (chooseAttach_stops_on_error _ u error) in E
             by assumption.
           inversion E.
           eapply (core_timer_user w _ n o u []); simpl;
             try reflexivity; try assumption.
           ++ rewrite app_nil_r. reflexivity.
           ++ left. reflexivity.
           ++ unfold same_shown. repeat split.
        -- rewrite (chooseAttach_opens_dialog _ u) in E by assumption.
           inversion E.
           eapply (core_timer_user w _ n o u); simpl;
             try reflexivity; try assumption.
           ++ right. reflexivity.
           ++ unfold same_shown. repeat split.
      * rewrite chooseAttach_no_user in E by assumption.
        inversion E.
        eapply (core_timer_no_user w _ n o); simpl;
          try reflexivity; try assumption.
        unfold same_shown. repeat split.
    + rewrite (on_timerFired_none _ _ Hn) in E. inversion E.
      apply core_same, same_core_refl.
  - (* dialogClosed *)
    apply on_dialogClosed_core in E.
    destruct E as (E1 & E2 & E3 & E4 & E5 & E6).
    apply (core_dialog_closed w w' n); try assumption.
    unfold same_shown. repeat split; assumption.
  - (* showCalled *)
    destruct (ReplyAreaData_eqb (_data w) data) eqn:Hd.
    + apply ReplyAreaData_eqb_eq in Hd.
      rewrite (show_stored w data) in E by congruence. inversion E.
      apply core_same, same_core_refl.
    + apply ReplyAreaData_eqb_neq in Hd.
      destruct (UserPtr_opt_eqb (user data) (user (_data w))) eqn:Hu.
      * apply UserPtr_opt_eqb_eq in Hu.
        destruct (user data) as [u|] eqn:Hs.
        -- rewrite (show_same_user w data u) in E by congruence.
           inversion E. apply core_show_same_user; simpl; congruence.
        -- rewrite (show_no_user w data) in E by congruence.
           inversion E. apply core_show_same_user; simpl; congruence.
      * apply UserPtr_opt_eqb_neq in Hu.
        rewrite (show_user_changed w data Hu) in E. inversion E.
        apply core_show_other_user; simpl; try reflexivity. exact Hu.
Qed.

(** ** Invariants *)

(** Whatever [core_step] preserves, a run preserves. *)
Lemma run_preserves (P : World -> Prop) :
  (forall w w', core_step w w' -> P w -> P w') ->
  forall inputs w w', run inputs w = Done tt w' -> P w -> P w'.
Proof.
  intros Hstep. induction inputs as [|i rest IH]; intros w w' E HP.
  - inversion E. subst. exact HP.
  - simpl in E. unfold bind in E.
    destruct (step i w) as [[] w1|what] eqn:Es; [|discriminate E].
    apply (IH w1 w' E). eapply Hstep; [|exact HP].
    eapply step_is_core_step. exact Es.
Qed.

Lemma reachable_invariant (P : World -> Prop) :
  P constructed ->
  (forall w w', core_step w w' -> P w -> P w') ->
  forall w, reachable w -> P w.
Proof.
  intros H0 Hstep w [inputs E].
  exact (run_preserves P Hstep inputs constructed w E H0).
Qed.

Lemma run_app (xs ys : list Input) (w w1 w2 : World) :
  run xs w = Done tt w1 -> run ys w1 = Done tt w2 ->
  run (xs ++ ys) w = Done tt w2.
Proof.
  revert w. induction xs as [|i xs IH]; intros w E1 E2.
  - inversion E1. subst. exact E2.
  - simpl in *. unfold bind in *.
    destruct (step i w) as [[] w'|what]; [|discriminate E1].
    apply IH; assumption.
Qed.

Lemma reachable_run (inputs : list Input) (w w' : World) :
  reachable w -> run inputs w = Done tt w' -> reachable w'.
Proof.
  intros [pre E] E'. exists (pre ++ inputs). eapply run_app; eassumption.
Qed.

Lemma length_remove_nth {A} (n : nat) (l : list A) :
  List.length (remove_nth n l) <= List.length l.
Proof.
  revert n. induction l as [|x l IH]; intros [|n]; simpl; try lia.
  specialize (IH n). lia.
Qed.

Lemma remove_nth_short {A} (n : nat) (l : list A) (x : A) :
  List.length l <= 1 -> nth_error l n = Some x -> remove_nth n l = [].
Proof.
  destruct l as [|y [|z l]]; simpl; intros Hl Hn.
  - destruct n; discriminate Hn.
  - destruct n as [|[|n]]; try reflexivity; discriminate Hn.
  - lia.
Qed.

Lemma In_remove_nth {A} (n : nat) (l : list A) (x : A) :
  In x (remove_nth n l) -> In x l.
Proof.
  revert n. induction l as [|y l IH]; intros [|n]; simpl; auto.
  intros [H|H]; [left; exact H|right; eapply IH; exact H].
Qed.

Lemma one_chooser_pending_step (w w' : World) :
  core_step w w' -> one_chooser_pending w -> one_chooser_pending w'.
Proof.
  unfold one_chooser_pending.
  intros Hs [Hlen Hflag].
  destruct Hs as
    [ (_ & _ & Ef & Ed & _)
    | o Hf Hf' Ed _ _
    | n o Hn Hu Ed Ef _ _
    | n o u req Hn Hu Ed Ef _ _ _
    | n _ Ef Ed _
    | _ _ _ Ef Ed _
    | _ _ _ Ef Ed _ ];
    try (rewrite Ed, Ef; split; assumption).
  - (* accepted: the queue was empty *)
    assert (Hnil : delayed w = []).
    { destruct (delayed w) as [|x l] eqn:El; [reflexivity|].
      assert (true = false) by (rewrite <- Hf; symmetry; apply Hflag; discriminate).
      discriminate. }
    rewrite Ed, Hnil. simpl. split; [lia|intros _; exact Hf'].
  - rewrite Ed, (remove_nth_short _ _ _ Hlen Hn). simpl.
    split; [lia|intros F; contradiction F; reflexivity].
  - rewrite Ed, (remove_nth_short _ _ _ Hlen Hn). simpl.
    split; [lia|intros F; contradiction F; reflexivity].
Qed.

Lemma attach_stuck_step (w w' : World) :
  core_step w w' -> attach_stuck w -> attach_stuck w'.
Proof.
  unfold attach_stuck.
  intros Hs [Hflag Hnil].
  destruct Hs as
    [ (_ & _ & Ef & Ed & _)
    | o Hf Hf' Ed _ _
    | n o Hn Hu Ed Ef _ _
    | n o u req Hn Hu Ed Ef _ _ _
    | n _ Ef Ed _
    | _ _ _ Ef Ed _
    | _ _ _ Ef Ed _ ];
    try (rewrite Ed, Ef; split; assumption).
  - congruence.
  - rewrite Hnil in Hn. destruct n; discriminate Hn.
  - rewrite Hnil in Hn. destruct n; discriminate Hn.
Qed.

Lemma alive_spec (h : WeakHandle) (object : has_weak_ptr) :
  alive h object = true <-> h = object.
Proof. unfold alive. apply Nat.eqb_eq. Qed.

Lemma alive_false (h : WeakHandle) (object : has_weak_ptr) :
  alive h object = false <-> h <> object.
Proof. unfold alive. apply Nat.eqb_neq. Qed.

(** For a fixed dialog, whether it is still in the queue or not. *)
Lemma handle_tracks_user_step (d : OpenDialog) (w w' : World) :
  core_step w w' -> handle_tracks_user d w -> handle_tracks_user d w'.
Proof.
  unfold handle_tracks_user.
  intros Hs [Hle Hlive].
  destruct Hs as
    [ (Edata & Eg & _)
    | o _ _ _ _ (Edata & Eg & _)
    | n o _ _ _ _ _ (Edata & Eg & _)
    | n o u req _ _ _ _ _ _ (Edata & Eg & _)
    | n _ _ _ (Edata & Eg & _)
    | Eu Eg _ _ _ _
    | Eu Eg _ _ _ _ ];
    try (rewrite Eg, Edata; split; assumption).
  - rewrite Eg, Eu. split; assumption.
  - rewrite Eg. unfold invalidate_weak_ptrs. split; [lia|].
    intros Ha. apply alive_spec in Ha. lia.
Qed.

Lemma dialogs_tracked_step (w w' : World) :
  core_step w w' ->
  (forall d, In d (dialogs w) -> handle_tracks_user d w) ->
  (forall d, In d (dialogs w') -> handle_tracks_user d w').
Proof.
  intros Hs Hall d Hin.
  assert (Hold : In d (dialogs w) -> handle_tracks_user d w').
  { intros H. eapply handle_tracks_user_step; [exact Hs|apply Hall, H]. }
  destruct Hs as
    [ (_ & _ & _ & _ & Eq & _)
    | o _ _ _ Eq _
    | n o _ _ _ _ Eq _
    | n o u req _ Hu _ _ Eq Hreq (Edata & Eg & _)
    | n Eq _ _ _
    | _ _ _ _ _ Eq
    | _ _ _ _ _ Eq ];
    try (apply Hold; rewrite <- Eq; exact Hin).
  - rewrite Eq in Hin. apply in_app_or in Hin.
    destruct Hin as [Hin|Hin]; [apply Hold, Hin|].
    destruct Hreq as [->| ->]; [contradiction Hin|].
    destruct Hin as [<-|[]].
    unfold handle_tracks_user, make_weak. simpl.
    rewrite Eg, Edata. split; [lia|intros _; exact Hu].
  - apply Hold. rewrite Eq in Hin. eapply In_remove_nth. exact Hin.
Qed.

Lemma history_follows_user_step (w w' : World) :
  core_step w w' -> history_follows_user w -> history_follows_user w'.
Proof.
  unfold history_follows_user.
  intros Hs Hh.
  destruct Hs as
    [ (Edata & _ & _ & _ & _ & Eh)
    | o _ _ _ _ (Edata & _ & Eh)
    | n o _ _ _ _ _ (Edata & _ & Eh)
    | n o u req _ _ _ _ _ _ (Edata & _ & Eh)
    | n _ _ _ (Edata & _ & Eh)
    | Eu _ Eh _ _ _
    | _ _ Eh _ _ _ ];
    try (rewrite Eh, Edata; exact Hh).
  - rewrite Eh, Eu. exact Hh.
  - exact Eh.
Qed.

Lemma reachable_one_chooser_pending (w : World) :
  reachable w -> one_chooser_pending w.
Proof.
  apply (reachable_invariant one_chooser_pending).
  - unfold one_chooser_pending. simpl. split; [lia|congruence].
  - apply one_chooser_pending_step.
Qed.

Lemma reachable_dialogs_tracked (w : World) :
  reachable w -> forall d, In d (dialogs w) -> handle_tracks_user d w.
Proof.
  apply (reachable_invariant
           (fun w => forall d, In d (dialogs w) -> handle_tracks_user d w)).
  - intros d [].
  - apply dialogs_tracked_step.
Qed.

Lemma reachable_history_follows_user (w : World) :
  reachable w -> history_follows_user w.
Proof.
  apply (reachable_invariant history_follows_user).
  - reflexivity.
  - apply history_follows_user_step.
Qed.

(** ** The claims about the event loop *)

(** C4, as the code has it: [show] with a record that differs from the
    stored one stores the new record, and afterwards the compose
    controls target the history of the new user (none without a user).
    When the user changes, [setHistory] is called with that history and
    the input is cleared; when the user stays and is set, the input is
    cleared and [setHistory] is not called; when there is no user before
    and after, only the stored record changes and the input keeps its
    text. *)
Theorem show_replaces_stored_record :
  forall (w : World) (data : ReplyAreaData),
    reachable w ->
    data <> _data w ->
    exists w',
      show data w = Done tt w'
      /\ _data w' = data
      /\ HistoryView.history (_controls w')
         = option_map owner_history (user data)
      /\ (user data <> user (_data w) ->
          logged_since w w'
          = [controls_setHistory (option_map owner_history (user data));
             controls_clear]
          /\ HistoryView.field (_controls w') = TextWithTags_empty)
      /\ (user data = user (_data w) -> user data <> None ->
          logged_since w w' = [controls_clear]
          /\ HistoryView.field (_controls w') = TextWithTags_empty)
      /\ (user data = user (_data w) -> user data = None ->
          w' = set_data data w).
Proof.
  intros w data Hr Hd.
  pose proof (reachable_history_follows_user w Hr) as Hh.
  unfold history_follows_user in Hh.
  destruct (UserPtr_opt_eqb (user data) (user (_data w))) eqn:Hu.
  - apply UserPtr_opt_eqb_eq in Hu.
    destruct (user data) as [u|] eqn:Hs.
    + eexists. split; [apply (show_same_user w data u); congruence|].
      split; [reflexivity|].
      split; [simpl; rewrite Hh, <- Hu; reflexivity|].
      split; [intros F; contradiction|].
      split; [|intros _ F; discriminate F].
      intros _ _. split; [|reflexivity].
      apply logged_since_app. reflexivity.
    + eexists. split; [apply (show_no_user w data); congruence|].
      split; [reflexivity|].
      split; [simpl; rewrite Hh, <- Hu; reflexivity|].
      split; [intros F; contradiction|].
      split; [intros _ F; contradiction F; reflexivity|].
      intros _ _. reflexivity.
  - apply UserPtr_opt_eqb_neq in Hu.
    eexists. split; [apply (show_user_changed w data Hu)|].
    split; [reflexivity|].
    split; [reflexivity|].
    split; [|split; intros F; contradiction].
    intros _. split; [|reflexivity].
    apply logged_since_app. reflexivity.
Qed.

(** C9: in a world the object can be in, let a delayed [chooseAttach]
    be waiting (an attach request was accepted, so the flag is up) and
    let no user be set.  When the timer fires, [chooseAttach] returns
    before the line that resets the flag: nothing changes but the queue
    of delayed calls, which is now empty, and [_choosingAttach] is still
    [true].  After any further inputs it is still [true], and an attach
    request at that point is filtered out: it changes nothing. *)
Theorem attach_flag_stays_up_without_user :
  forall (w : World) (n : nat) (overrideCompress : option bool),
    reachable w ->
    nth_error (delayed w) n = Some overrideCompress ->
    user (_data w) = None ->
    exists w',
      step (timerFired n) w = Done tt w'
      /\ w' = set_delayed [] w
      /\ _choosingAttach w' = true
      /\ forall inputs w'',
           run inputs w' = Done tt w'' ->
           _choosingAttach w'' = true
           /\ attachRequests_filter w'' = false
           /\ forall o, step (attachRequests o) w'' = Done tt w''.
Proof.
  intros w n o Hr Hn Hu.
  destruct (reachable_one_chooser_pending w Hr) as [Hlen Hflag].
  assert (Hup : _choosingAttach w = true).
  { apply Hflag. intros F. rewrite F in Hn. destruct n; discriminate Hn. }
  exists (set_delayed [] w).
  assert (Es : step (timerFired n) w = Done tt (set_delayed [] w)).
  { simpl. rewrite (on_timerFired_some w n o Hn).
    rewrite (remove_nth_short _ _ _ Hlen Hn).
    apply chooseAttach_no_user. exact Hu. }
  split; [exact Es|]. split; [reflexivity|]. split; [exact Hup|].
  intros inputs w'' Er.
  assert (Hstuck : attach_stuck w'').
  { apply (run_preserves attach_stuck attach_stuck_step inputs _ _ Er).
    split; [exact Hup|reflexivity]. }
  destruct Hstuck as [Hf _].
  split; [exact Hf|]. split.
  - unfold attachRequests_filter. rewrite Hf. reflexivity.
  - intros o'. simpl. apply on_attachRequests_filtered. exact Hf.
Qed.

(** C6: in a world the object can be in, take a file dialog that
    [chooseAttach] has requested and that has not reported yet.  Its
    callback was registered behind a handle on [_shownUserGuard]: a
    request made now gets the handle that is live now, and a dialog
    whose handle is live belongs to the current user.  [show]
    invalidates [_shownUserGuard] when the user changes and leaves it
    alone when the user stays, so the handle is live afterwards exactly
    when it was live and the user stays the same.
    Hence, once the current user is not the one the dialog was opened
    for, the handle is dead for good: whatever happens next, when the
    dialog reports the callback is skipped and the dialog is only
    removed from the queue. *)
Theorem dialog_callback_guarded_by_user :
  forall (w : World) (d : OpenDialog),
    reachable w ->
    In d (dialogs w) ->
    (forall u o,
        user (_data w) = Some u ->
        AnyFileRestrictionError u = None ->
        exists w',
          chooseAttach o w = Done tt w'
          /\ dialogs w'
             = dialogs w ++
                 [{| guard := make_weak (_shownUserGuard w);
                     captured_override := o;
                     opened_under := u |}])
    /\ (alive (guard d) (_shownUserGuard w) = true ->
        user (_data w) = Some (opened_under d))
    /\ (forall data,
          exists w',
            show data w = Done tt w'
            /\ (user data <> user (_data w) ->
                _shownUserGuard w' = invalidate_weak_ptrs (_shownUserGuard w))
            /\ (user data = user (_data w) ->
                _shownUserGuard w' = _shownUserGuard w)
            /\ (alive (guard d) (_shownUserGuard w') = true <->
                alive (guard d) (_shownUserGuard w) = true
                /\ user data = user (_data w)))
    /\ (forall inputs w',
          run inputs w = Done tt w' ->
          user (_data w') <> Some (opened_under d) ->
          forall inputs' w'',
            run inputs' w' = Done tt w'' ->
            alive (guard d) (_shownUserGuard w'') = false
            /\ forall n result,
                 nth_error (dialogs w'') n = Some d ->
                 step (dialogClosed n result) w''
                 = Done tt (dialog_dropped n w'')).
Proof.
  intros w d Hr Hin.
  pose proof (reachable_dialogs_tracked w Hr d Hin) as Htr.
  split; [|split; [|split]].
  - intros u o Hu He. eexists.
    split; [apply (chooseAttach_opens_dialog w u o Hu He)|reflexivity].
  - apply Htr.
  - intros data. destruct Htr as [Hle Hlive].
    destruct (ReplyAreaData_eqb (_data w) data) eqn:Hd.
    + apply ReplyAreaData_eqb_eq in Hd. exists w.
      split; [apply show_stored; congruence|].
      split; [intros F; contradiction F; congruence|].
      split; [reflexivity|].
      split; [intros H; split; [exact H|congruence]|intros [H _]; exact H].
    + apply ReplyAreaData_eqb_neq in Hd.
      destruct (UserPtr_opt_eqb (user data) (user (_data w))) eqn:Hu.
      * apply UserPtr_opt_eqb_eq in Hu.
        destruct (user data) as [u|] eqn:Hs.
        -- eexists. split; [apply (show_same_user w data u); congruence|].
           split; [intros F; contradiction|].
           split; [reflexivity|]. simpl.
           split; [intros H; split; [exact H|exact Hu]|intros [H _]; exact H].
        -- eexists. split; [apply (show_no_user w data); congruence|].
           split; [intros F; contradiction|].
           split; [reflexivity|]. simpl.
           split; [intros H; split; [exact H|exact Hu]|intros [H _]; exact H].
      * apply UserPtr_opt_eqb_neq in Hu.
        eexists. split; [apply (show_user_changed w data Hu)|].
        split; [reflexivity|].
        split; [intros F; contradiction|].
        simpl. unfold invalidate_weak_ptrs. split.
        -- intros H. apply alive_spec in H. lia.
        -- intros [_ H]. contradiction.
  - intros inputs w' Er Hother inputs' w'' Er'.
    assert (Htr' : handle_tracks_user d w').
    { exact (run_preserves (handle_tracks_user d)
               (handle_tracks_user_step d) inputs w w' Er Htr). }
    assert (Hdead : guard d < _shownUserGuard w').
    { destruct Htr' as [Hle Hlive].
      destruct (Nat.eq_dec (guard d) (_shownUserGuard w')) as [E|E]; [|lia].
      exfalso. apply Hother, Hlive, alive_spec, E. }
    assert (Hlater : guard d < _shownUserGuard w'').
    { apply (run_preserves (fun x => guard d < _shownUserGuard x)) with
        (inputs := inputs') (w := w'); [|exact Er'|exact Hdead].
      intros x x' Hs Hx.
      destruct Hs as
        [ (_ & Eg & _)
        | ? _ _ _ _ (_ & Eg & _)
        | ? ? _ _ _ _ _ (_ & Eg & _)
        | ? ? ? ? _ _ _ _ _ _ (_ & Eg & _)
        | ? _ _ _ (_ & Eg & _)
        | _ Eg _ _ _ _
        | _ Eg _ _ _ _ ];
        rewrite Eg; unfold invalidate_weak_ptrs; lia. }
    assert (Ha : alive (guard d) (_shownUserGuard w'') = false).
    { apply alive_false. lia. }
    split; [exact Ha|].
    intros n result Hn. simpl.
    apply (on_dialogClosed_dead w'' n d result Hn Ha).
Qed.

End Properties.

(** * More of the file *)

Section Sending.

Context {collaborators : Collaborators}.

Lemma set_log_set_log (l l' : list Effect) (w : World) :
  set_log l' (set_log l w) = set_log l' w.
Proof. reflexivity. Qed.

Lemma replies_to_story_intro (d : ReplyAreaData) (u : UserPtr)
    (a : Api.SendAction) :
  user d = Some u ->
  Api.history a = owner_history u ->
  Api.storyId (Api.replyTo a) = {| Api.peer := user_id u; Api.story := id d |} ->
  replies_to_story d a = true.
Proof.
  intros Hu Hh Hs. unfold replies_to_story. rewrite Hu, Hh, Hs. simpl.
  rewrite N.eqb_refl, !Z.eqb_refl. reflexivity.
Qed.

Lemma replies_to_story_elim (d : ReplyAreaData) (a : Api.SendAction) :
  replies_to_story d a = true ->
  exists u,
    user d = Some u
    /\ Api.history a = owner_history u
    /\ Api.peer (Api.storyId (Api.replyTo a)) = user_id u
    /\ Api.story (Api.storyId (Api.replyTo a)) = id d.
Proof.
  unfold replies_to_story. destruct (user d) as [u|]; [|discriminate].
  intros H. apply andb_true_iff in H. destruct H as [H H3].
  apply andb_true_iff in H. destruct H as [H1 H2].
  exists u. repeat split.
  - apply N.eqb_eq. exact H1.
  - apply Z.eqb_eq. exact H2.
  - apply Z.eqb_eq. exact H3.
Qed.

(** ** [sendVoice], [uploadFile] *)

Lemma sendVoice_run (w : World) (u : UserPtr) (data : VoiceToSend) :
  user (_data w) = Some u ->
  forall action,
    prepareSendAction (voice_options data) w = Done action w ->
    sendVoice data w =
      Done tt
        (set_log
           (log w ++
              [api_sendVoiceMessage data action;
               controls_clearListenState;
               controls_hidePanelsAnimated;
               wrap_setFocus])
           w).
Proof.
  intros Hu action Hact. unfold sendVoice. unfold_M.
  rewrite Hact. simpl. rewrite Hu. simpl.
  unfold set_log. simpl. repeat rewrite <- app_assoc. reflexivity.
Qed.

Lemma uploadFile_run (w : World) (u : UserPtr)
    (content : QByteArray) (type : SendMediaType) :
  user (_data w) = Some u ->
  forall action,
    prepareSendAction Api.SendOptions_default w = Done action w ->
    uploadFile content type w =
      Done tt (set_log (log w ++ [api_sendFile content type action]) w).
Proof.
  intros Hu action Hact. unfold uploadFile. unfold_M.
  rewrite Hu. simpl. rewrite Hact. reflexivity.
Qed.

(** X1: with a user set, [sendVoice] hands the voice note to the
    session API with an action that replies to the current story, then
    clears the listen state, hides the panels and gives the focus back;
    it calls nothing else and, unlike [send], leaves the input field and
    the rest of the object as they are. *)
Theorem sendVoice_replies_and_keeps_text :
  forall (w : World) (u : UserPtr) (data : VoiceToSend),
    user (_data w) = Some u ->
    exists action,
      sendVoice data w =
        Done tt
          (set_log
             (log w ++
                [api_sendVoiceMessage data action;
                 controls_clearListenState;
                 controls_hidePanelsAnimated;
                 wrap_setFocus])
             w)
      /\ replies_to_story (_data w) action = true
      /\ Api.scheduled (Api.options action)
         = Api.scheduled (voice_options data)
      /\ Api.sendAs (Api.options action)
         = HistoryView.sendAsPeer (_controls w).
Proof.
  intros w u data Hu. eexists. split.
  - apply (sendVoice_run w u data Hu _
             (prepareSendAction_run w u (voice_options data) Hu)).
  - split; [|split; reflexivity].
    apply (replies_to_story_intro _ u); [exact Hu|reflexivity|reflexivity].
Qed.

(** X2: without a user, [send], [sendVoice], [uploadFile] and the
    mime-data overload of [confirmSendingFiles] all stop on
    [Expects(_data.user != nullptr)]: none of them returns. *)
Theorem sending_without_user_violates_contract :
  forall (w : World),
    user (_data w) = None ->
    (forall options,
        send options w = Violation "Expects(_data.user != nullptr)")
    /\ (forall data,
          sendVoice data w = Violation "Expects(_data.user != nullptr)")
    /\ (forall content type,
          uploadFile content type w
          = Violation "Expects(_data.user != nullptr)")
    /\ (forall data overrideSendImagesAsPhotos insertTextOnCancel,
          confirmSendingFiles data overrideSendImagesAsPhotos
            insertTextOnCancel w
          = Violation "Expects(_data.user != nullptr)").
Proof.
  intros w Hu. repeat split; intros.
  - unfold send, prepareSendAction. unfold_M. rewrite Hu. reflexivity.
  - unfold sendVoice, prepareSendAction. unfold_M. rewrite Hu. reflexivity.
  - unfold uploadFile. unfold_M. rewrite Hu. reflexivity.
  - unfold confirmSendingFiles. unfold_M. rewrite Hu. reflexivity.
Qed.

(** ** [sendingFilesConfirmed] *)

(** What [showSendingFilesError] can do to the world. *)
Lemma showSendingFilesError_false (w w' : World)
    (prepared : Ui.PreparedList) (compress : option bool) :
  showSendingFilesError prepared compress w = Done false w' -> w' = w.
Proof.
  unfold showSendingFilesError, files_back. unfold_M.
  destruct (isEmpty _); [intros E; inversion E; reflexivity|].
  destruct (String.eqb _ _).
  - destruct (Ui.files prepared); [discriminate|].
    destruct (user (_data w)); simpl; discriminate.
  - discriminate.
Qed.

(** The loop over the groups. *)
Lemma sendGroups_run (groups : list Ui.PreparedGroup) :
  forall (w : World) (u : UserPtr) (type : SendMediaType)
         (caption : TextWithTags) (action : Api.SendAction),
    user (_data w) = Some u ->
    sendGroups groups type caption action w =
      Done tt
        (set_log (log w ++ sendFiles_calls type action caption groups) w).
Proof.
  induction groups as [|group rest IH]; intros w u type caption action Hu.
  - simpl. unfold ret. rewrite app_nil_r, set_log_same. reflexivity.
  - simpl. unfold_M. rewrite Hu. simpl.
    rewrite (IH _ u) by exact Hu. simpl.
    rewrite set_log_set_log. rewrite <- app_assoc. simpl.
    destruct rest; reflexivity.
Qed.

Lemma sendingFilesConfirmed_run
    (w : World) (u : UserPtr) (prepared : Ui.PreparedList)
    (way : Ui.SendFilesWay) (caption : TextWithTags)
    (options : Api.SendOptions) (ctrlShiftEnter : bool) :
  user (_data w) = Some u ->
  Ui.filesToProcess prepared = [] ->
  showSendingFilesError prepared (Some (Ui.sendImagesAsPhotos way)) w
  = Done false w ->
  forall prepared_action groups type action separate,
    prepareSendAction options w = Done prepared_action w ->
    groups = DivideByGroups prepared way (slowmodeApplied u) ->
    type = (if Ui.sendImagesAsPhotos way
            then SendMediaType_Photo else SendMediaType_File) ->
    action = with_clearDraft prepared_action false ->
    separate = captionGoesFirst groups && negb (isEmpty (text caption)) ->
    sendingFilesConfirmed prepared way caption options ctrlShiftEnter w =
      Done tt
        (set_log
           (log w ++
              (if separate
               then [api_sendMessage
                       {| Api.action := action;
                          Api.textWithTags := caption;
                          Api.webPageId := 0%Z |}]
               else []) ++
              sendFiles_calls type action
                (if separate then TextWithTags_empty else caption) groups ++
              [controls_hidePanelsAnimated; wrap_setFocus])
           w).
Proof.
  intros Hu Hp Hs pa groups type action separate Hact -> -> -> ->.
  unfold sendingFilesConfirmed. rewrite Hp. simpl.
  unfold bind at 1. rewrite Hs.
  unfold bind at 1. unfold gets at 1. rewrite Hu.
  unfold bind at 1. rewrite Hact.
  set (groups := DivideByGroups prepared way (slowmodeApplied u)).
  set (action := with_clearDraft pa false).
  destruct (captionGoesFirst groups && negb (isEmpty (text caption))).
  - unfold_M. rewrite Hu. simpl.
    rewrite (sendGroups_run groups _ u) by exact Hu. simpl.
    unfold set_log. simpl. repeat rewrite <- app_assoc. reflexivity.
  - unfold_M.
    rewrite (sendGroups_run groups _ u) by exact Hu. simpl.
    unfold set_log. simpl. repeat rewrite <- app_assoc. reflexivity.
Qed.

Lemma captions_sent_app (es es' : list Effect) :
  captions_sent (es ++ es') = captions_sent es ++ captions_sent es'.
Proof.
  induction es as [|e es IH]; [reflexivity|]. simpl.
  destruct (caption_of e) as [caption|]; [|exact IH].
  destruct (isEmpty (text caption)); [exact IH|].
  simpl. rewrite IH. reflexivity.
Qed.

Lemma captions_sent_without_caption
    (type : SendMediaType) (action : Api.SendAction)
    (groups : list Ui.PreparedGroup) :
  captions_sent (map (sendFiles_call type action TextWithTags_empty) groups)
  = [].
Proof. induction groups as [|g groups IH]; [reflexivity|exact IH]. Qed.

Lemma captions_sent_calls
    (type : SendMediaType) (action : Api.SendAction)
    (caption : TextWithTags) (groups : list Ui.PreparedGroup) :
  captions_sent (sendFiles_calls type action caption groups)
  = match groups with
    | [] => []
    | _ :: _ => if isEmpty (text caption) then [] else [caption]
    end.
Proof.
  destruct groups as [|g rest]; [reflexivity|]. simpl.
  rewrite captions_sent_without_caption.
  destruct (isEmpty (text caption)); reflexivity.
Qed.

(** Without restriction and without an error in the list, nothing is
    shown. *)
Lemma showSendingFilesError_clean
    (w : World) (prepared : Ui.PreparedList) (compress : option bool) :
  FileRestrictionError (user (_data w)) prepared compress = None ->
  Ui.error prepared = Ui.Error.None ->
  showSendingFilesError prepared compress w = Done false w.
Proof.
  intros Hr He. unfold showSendingFilesError, sendingFilesErrorText.
  unfold_M. rewrite Hr, He. reflexivity.
Qed.

(** X3: when the send-files box is confirmed for a list without error
    and a recipient without restriction, a caption that is not empty is
    handed to the session API exactly once: as a message of its own, or
    with the single group that is sent with its caption.  An empty
    caption is sent with nothing, and the input field is not touched. *)
Theorem sendingFilesConfirmed_sends_caption_once :
  forall (w : World) (u : UserPtr) (prepared : Ui.PreparedList)
         (way : Ui.SendFilesWay) (caption : TextWithTags)
         (options : Api.SendOptions) (ctrlShiftEnter : bool),
    user (_data w) = Some u ->
    Ui.filesToProcess prepared = [] ->
    FileRestrictionError (Some u) prepared (Some (Ui.sendImagesAsPhotos way))
    = None ->
    Ui.error prepared = Ui.Error.None ->
    exists w',
      sendingFilesConfirmed prepared way caption options ctrlShiftEnter w
      = Done tt w'
      /\ captions_sent (logged_since w w')
         = (if isEmpty (text caption) then [] else [caption])
      /\ _controls w' = _controls w.
Proof.
  intros w u prepared way caption options cse Hu Hp Hr He.
  assert (Hs : showSendingFilesError prepared
                 (Some (Ui.sendImagesAsPhotos way)) w = Done false w).
  { apply showSendingFilesError_clean; [rewrite Hu; exact Hr|exact He]. }
  eexists. split.
  - apply (sendingFilesConfirmed_run w u prepared way caption options cse
             Hu Hp Hs _ _ _ _ _
             (prepareSendAction_run w u options Hu)
             eq_refl eq_refl eq_refl eq_refl).
  - split; [|reflexivity].
    erewrite logged_since_app by (simpl; reflexivity).
    rewrite !captions_sent_app, captions_sent_calls.
    set (groups := DivideByGroups prepared way (slowmodeApplied u)).
    unfold captionGoesFirst.
    destruct (isEmpty (text caption)) eqn:Hc.
    + rewrite andb_false_r. simpl. rewrite Hc.
      destruct groups; reflexivity.
    + rewrite andb_true_r.
      destruct groups as [|g [|g' rest]]; simpl; rewrite ?Hc; try reflexivity.
      destruct (sentWithCaption g); simpl; rewrite Hc; reflexivity.
Qed.

(** X4: in the same situation [sendingFilesConfirmed] calls [sendFiles]
    once per group of [DivideByGroups], in order, as photos exactly when
    the way says so, every time with the same action; that action
    replies to the current story and has [clearDraft] off.  With the
    optional caption message these are all the calls on the session
    API, and the last two calls are those of [finishSending]. *)
Theorem sendingFilesConfirmed_sends_each_group :
  forall (w : World) (u : UserPtr) (prepared : Ui.PreparedList)
         (way : Ui.SendFilesWay) (caption : TextWithTags)
         (options : Api.SendOptions) (ctrlShiftEnter : bool),
    user (_data w) = Some u ->
    Ui.filesToProcess prepared = [] ->
    FileRestrictionError (Some u) prepared (Some (Ui.sendImagesAsPhotos way))
    = None ->
    Ui.error prepared = Ui.Error.None ->
    exists w' action first_caption before,
      sendingFilesConfirmed prepared way caption options ctrlShiftEnter w
      = Done tt w'
      /\ logged_since w w'
         = before ++
           sendFiles_calls
             (if Ui.sendImagesAsPhotos way
              then SendMediaType_Photo else SendMediaType_File)
             action first_caption
             (DivideByGroups prepared way (slowmodeApplied u)) ++
           [controls_hidePanelsAnimated; wrap_setFocus]
      /\ (before = []
          \/ before = [api_sendMessage
                         {| Api.action := action;
                            Api.textWithTags := caption;
                            Api.webPageId := 0%Z |}])
      /\ replies_to_story (_data w) action = true
      /\ Api.clearDraft action = false.
Proof.
  intros w u prepared way caption options cse Hu Hp Hr He.
  assert (Hs : showSendingFilesError prepared
                 (Some (Ui.sendImagesAsPhotos way)) w = Done false w).
  { apply showSendingFilesError_clean; [rewrite Hu; exact Hr|exact He]. }
  do 4 eexists. split.
  - apply (sendingFilesConfirmed_run w u prepared way caption options cse
             Hu Hp Hs _ _ _ _ _
             (prepareSendAction_run w u options Hu)
             eq_refl eq_refl eq_refl eq_refl).
  - split; [apply logged_since_app; simpl; reflexivity|].
    split; [|split; [|reflexivity]].
    + destruct (captionGoesFirst _ && _); [right|left]; reflexivity.
    + apply (replies_to_story_intro _ u); [exact Hu|reflexivity|reflexivity].
Qed.

End Sending.

Section Confirming.

Context {collaborators : Collaborators}.

(** ** Computations that only notify *)

Lemma quiet_ret {A} (a : A) : quiet (ret a).
Proof.
  intros w b w' E. inversion E. exists [].
  rewrite app_nil_r, set_log_same. split; reflexivity.
Qed.

Lemma quiet_gets {A} (f : World -> A) : quiet (gets f).
Proof.
  intros w b w' E. inversion E. exists [].
  rewrite app_nil_r, set_log_same. split; reflexivity.
Qed.

Lemma quiet_violation {A} (what : string) : quiet (@violation A what).
Proof. intros w b w' E. discriminate E. Qed.

Lemma quiet_emit (e : Effect) : is_session_send e = false -> quiet (emit e).
Proof.
  intros He w b w' E. inversion E. exists [e].
  split; [reflexivity|]. simpl. rewrite He. reflexivity.
Qed.

Lemma quiet_bind {A B} (c : M A) (k : A -> M B) :
  quiet c -> (forall a, quiet (k a)) -> quiet (bind c k).
Proof.
  intros Hc Hk w b w'' E. unfold bind in E.
  destruct (c w) as [a w'|what] eqn:Ec; [|discriminate E].
  destruct (Hc _ _ _ Ec) as (es & -> & Hes).
  destruct (Hk _ _ _ _ E) as (es' & -> & Hes').
  exists (es ++ es'). split.
  - simpl. rewrite set_log_set_log, app_assoc. reflexivity.
  - rewrite existsb_app, Hes, Hes'. reflexivity.
Qed.

Create HintDb quiet_steps.
#[local] Hint Resolve quiet_ret quiet_gets quiet_violation : quiet_steps.

Ltac quiet_step :=
  match goal with
  | |- quiet (bind _ _) => apply quiet_bind; [|intros ?]
  | |- quiet (emit _) => apply quiet_emit; reflexivity
  | |- quiet (if ?b then _ else _) => destruct b
  | |- quiet (match ?x with _ => _ end) => destruct x
  | |- quiet _ => solve [auto with quiet_steps]
  end.

Ltac quietly := cbv zeta; repeat quiet_step.

Lemma quiet_session : quiet session.
Proof. unfold session. quietly. Qed.

#[local] Hint Resolve quiet_session : quiet_steps.

Lemma quiet_showSendingFilesError
    (prepared : Ui.PreparedList) (compress : option bool) :
  quiet (showSendingFilesError prepared compress).
Proof. unfold showSendingFilesError, files_back. quietly. Qed.

#[local] Hint Resolve quiet_showSendingFilesError : quiet_steps.

Lemma quiet_confirmSendingFiles_list
    (prepared : Ui.PreparedList) (insertTextOnCancel : QString) :
  quiet (confirmSendingFiles_list prepared insertTextOnCancel).
Proof.
  unfold confirmSendingFiles_list, showSendingFilesError_1,
    getTextWithAppliedMarkdown.
  quietly.
Qed.

#[local] Hint Resolve quiet_confirmSendingFiles_list : quiet_steps.

Lemma quiet_confirmSendingFiles_image
    (picture : QImage) (content : QByteArray)
    (overrideSendImagesAsPhotos : option bool)
    (insertTextOnCancel : QString) :
  quiet
    (confirmSendingFiles_image picture content overrideSendImagesAsPhotos
       insertTextOnCancel).
Proof. unfold confirmSendingFiles_image. quietly. Qed.

#[local] Hint Resolve quiet_confirmSendingFiles_image : quiet_steps.

Lemma quiet_confirmSendingFiles
    (data : QMimeData) (overrideSendImagesAsPhotos : option bool)
    (insertTextOnCancel : QString) :
  quiet
    (confirmSendingFiles data overrideSendImagesAsPhotos insertTextOnCancel).
Proof. unfold confirmSendingFiles. quietly. Qed.

Lemma quiet_hands_nothing (w w' : World) (es : list Effect) :
  w' = set_log (log w ++ es) w ->
  existsb is_session_send es = false ->
  hands_to_session w w' = false.
Proof.
  intros -> Hes. unfold hands_to_session.
  erewrite logged_since_app by reflexivity. exact Hes.
Qed.

(** X5: none of the three overloads of [confirmSendingFiles] sends
    anything: whatever they are given and whatever they answer, they
    only add notifications (a toast, the size-limit box, the send-files
    box) to what has been shown; the session API is not called and no
    member of the object, the input field included, is changed. *)
Theorem confirmSendingFiles_never_sends :
  forall (w w' : World) (answer : bool),
    ((exists data overrideSendImagesAsPhotos insertTextOnCancel,
         confirmSendingFiles data overrideSendImagesAsPhotos
           insertTextOnCancel w = Done answer w')
     \/ (exists prepared insertTextOnCancel,
           confirmSendingFiles_list prepared insertTextOnCancel w
           = Done answer w')
     \/ (exists picture content overrideSendImagesAsPhotos insertTextOnCancel,
           confirmSendingFiles_image picture content
             overrideSendImagesAsPhotos insertTextOnCancel w
           = Done answer w')) ->
    hands_to_session w w' = false
    /\ w' = set_log (log w') w.
Proof.
  intros w w' answer H.
  assert (Q : exists es,
             w' = set_log (log w ++ es) w
             /\ existsb is_session_send es = false).
  { destruct H as [(d & o & t & E)|[(l & t & E)|(i & c & o & t & E)]].
    - exact (quiet_confirmSendingFiles _ _ _ _ _ _ E).
    - exact (quiet_confirmSendingFiles_list _ _ _ _ _ E).
    - exact (quiet_confirmSendingFiles_image _ _ _ _ _ _ _ E). }
  destruct Q as (es & Hw & Hes). split.
  - exact (quiet_hands_nothing w w' es Hw Hes).
  - rewrite Hw. reflexivity.
Qed.

(** ** [confirmSendingFiles(Ui::PreparedList&&, ...)] *)

(** The list overload on a clean list. *)
Lemma confirmSendingFiles_list_opens_box_run
    (w : World) (prepared : Ui.PreparedList) (insertTextOnCancel : QString) :
  confirmMediaEdit prepared = false ->
  FileRestrictionError (user (_data w)) prepared None = None ->
  Ui.error prepared = Ui.Error.None ->
  confirmSendingFiles_list prepared insertTextOnCancel w =
    Done true
      (set_log
         (log w ++
            [show_SendFilesBox
               {| box_list := prepared;
                  box_caption := HistoryView.field (_controls w);
                  box_peer := user (_data w);
                  box_insertTextOnCancel := insertTextOnCancel |}])
         w).
Proof.
  intros Hm Hr He.
  unfold confirmSendingFiles_list, showSendingFilesError_1. rewrite Hm.
  unfold bind at 1.
  rewrite (showSendingFilesError_clean w prepared None Hr He).
  reflexivity.
Qed.

(** X6: for a list that is not taken as a media edit, without error and
    for a recipient without restriction, the list overload opens the
    send-files box and answers [true]: one box, with the list as given,
    the current text of the input field as caption, the stored user for
    limits and checks and the text to put back on cancel.  Nothing else
    is called. *)
Theorem confirmSendingFiles_list_opens_box :
  forall (w : World) (prepared : Ui.PreparedList)
         (insertTextOnCancel : QString),
    confirmMediaEdit prepared = false ->
    FileRestrictionError (user (_data w)) prepared None = None ->
    Ui.error prepared = Ui.Error.None ->
    confirmSendingFiles_list prepared insertTextOnCancel w =
      Done true
        (set_log
           (log w ++
              [show_SendFilesBox
                 {| box_list := prepared;
                    box_caption := HistoryView.field (_controls w);
                    box_peer := user (_data w);
                    box_insertTextOnCancel := insertTextOnCancel |}])
           w).
Proof.
  intros w prepared t Hm Hr He.
  unfold confirmSendingFiles_list, showSendingFilesError_1. rewrite Hm.
  unfold bind at 1.
  rewrite (showSendingFilesError_clean w prepared None Hr He).
  reflexivity.
Qed.

(** The one notification of [showSendingFilesError] is not the
    send-files box. *)
Lemma showSendingFilesError_notification (w w' : World)
    (prepared : Ui.PreparedList) (compress : option bool) :
  showSendingFilesError prepared compress w = Done true w' ->
  exists e,
    w' = set_log (log w ++ [e]) w
    /\ is_SendFilesBox e = false.
Proof.
  unfold showSendingFilesError, files_back. unfold_M.
  destruct (isEmpty _); [discriminate|].
  destruct (String.eqb _ _).
  - destruct (Ui.files prepared); [discriminate|].
    destruct (user (_data w)); simpl; [|discriminate].
    intros E. inversion E. eexists. split; reflexivity.
  - intros E. inversion E. eexists. split; reflexivity.
Qed.

(** X7: when the list overload of [confirmSendingFiles] is given a list
    that is not taken as a media edit, it shows exactly one thing: the
    send-files box when it answers [true], an error (a toast or the
    size-limit box) when it answers [false].  It never shows an error
    and still opens the box. *)
Theorem confirmSendingFiles_list_shows_one_thing :
  forall (w w' : World) (prepared : Ui.PreparedList)
         (insertTextOnCancel : QString) (answer : bool),
    confirmMediaEdit prepared = false ->
    confirmSendingFiles_list prepared insertTextOnCancel w
    = Done answer w' ->
    exists e,
      w' = set_log (log w ++ [e]) w
      /\ is_SendFilesBox e = answer.
Proof.
  intros w w' prepared t answer Hm E.
  unfold confirmSendingFiles_list, showSendingFilesError_1 in E.
  rewrite Hm in E. unfold bind at 1 in E.
  destruct (showSendingFilesError prepared None w) as [shown w1|what] eqn:Es;
    [|discriminate E].
  destruct shown.
  - inversion E. subst.
    exact (showSendingFilesError_notification _ _ _ _ Es).
  - apply showSendingFilesError_false in Es. subst w1.
    unfold_M. inversion E. eexists. split; reflexivity.
Qed.

(** ** [confirmSendingFiles(not_null<const QMimeData*>, ...)] *)

(** X10: with a user shown, when the payload names files and their
    prepared list is acceptable (no non-local URL, and no error at all
    if the payload also holds an image), the mime-data overload hands
    that list, with the photo override set, to the list overload.  It
    passes an empty text to put back on cancel instead of the one it was
    given, and it answers [true] whatever the list overload answers. *)
Theorem confirmSendingFiles_prefers_urls :
  forall (w w' : World) (u : UserPtr) (data : QMimeData)
         (overrideSendImagesAsPhotos : option bool)
         (insertTextOnCancel : QString) (answer : bool),
    user (_data w) = Some u ->
    mimeUrls data <> [] ->
    Ui.error (PrepareMediaList (mimeUrls data) (session_premium u))
    <> Ui.Error.NonLocalUrl ->
    (Ui.error (PrepareMediaList (mimeUrls data) (session_premium u))
     = Ui.Error.None
     \/ hasImage data = false) ->
    confirmSendingFiles_list
      (Ui.with_override
         (PrepareMediaList (mimeUrls data) (session_premium u))
         overrideSendImagesAsPhotos)
      "" w
    = Done answer w' ->
    confirmSendingFiles data overrideSendImagesAsPhotos insertTextOnCancel w
    = Done true w'.
Proof.
  intros w w' u data o t answer Hu Hurls Hnl Hok E.
  unfold confirmSendingFiles. unfold bind at 1. unfold session.
  unfold bind at 1. unfold gets at 1. rewrite Hu. unfold ret at 1.
  cbv zeta.
  destruct (mimeUrls data) as [|url urls] eqn:Eu; [contradiction Hurls; reflexivity|].
  simpl negb. cbv iota.
  set (prepared := PrepareMediaList (url :: urls) (session_premium u)) in *.
  assert (Hc : negb (Ui.Error.eqb (Ui.error prepared) Ui.Error.NonLocalUrl)
               && (Ui.Error.eqb (Ui.error prepared) Ui.Error.None
                   || negb (hasImage data)) = true).
  { apply andb_true_iff. split.
    - destruct (Ui.error prepared); try reflexivity.
      contradiction Hnl. reflexivity.
    - destruct Hok as [-> | ->]; [reflexivity|apply orb_true_r]. }
  rewrite Hc. unfold bind. simpl. rewrite E. reflexivity.
Qed.


End Confirming.

Section Replying.

Context {collaborators : Collaborators}.

(** ** Every call on the session API replies to the stored story *)

Lemma not_session_send_sent_for (d : ReplyAreaData) (e : Effect) :
  is_session_send e = false -> sent_for d e = true.
Proof. destruct e; simpl; intros H; try discriminate H; reflexivity. Qed.

Lemma no_session_send_sent_for (d : ReplyAreaData) (es : list Effect) :
  existsb is_session_send es = false -> forallb (sent_for d) es = true.
Proof.
  induction es as [|e es IH]; [reflexivity|]. simpl.
  intros H. apply orb_false_iff in H. destruct H as [He Hes].
  rewrite (not_session_send_sent_for d e He), (IH Hes). reflexivity.
Qed.

Lemma sent_for_without_user (d : ReplyAreaData) (es : list Effect) :
  user d = None ->
  forallb (sent_for d) es = true ->
  existsb is_session_send es = false.
Proof.
  intros Hu. induction es as [|e es IH]; [reflexivity|]. simpl.
  intros H. apply andb_true_iff in H. destruct H as [He Hes].
  rewrite (IH Hes), orb_false_r.
  unfold sent_for, replies_to_story in He. rewrite Hu in He.
  destruct e; simpl in *; try reflexivity; discriminate He.
Qed.

Lemma replies_only_of_quiet {A} (c : M A) : quiet c -> replies_only c.
Proof.
  intros Hq w a w' E. destruct (Hq _ _ _ E) as (es & -> & Hes).
  split; [reflexivity|]. exists es. split; [reflexivity|].
  apply no_session_send_sent_for. exact Hes.
Qed.

Lemma replies_only_bind {A B} (c : M A) (k : A -> M B) :
  replies_only c -> (forall a, replies_only (k a)) -> replies_only (bind c k).
Proof.
  intros Hc Hk w b w'' E. unfold bind in E.
  destruct (c w) as [a w'|what] eqn:Ec; [|discriminate E].
  destruct (Hc _ _ _ Ec) as (Hd & es & Hl & Hes).
  destruct (Hk _ _ _ _ E) as (Hd' & es' & Hl' & Hes').
  split; [congruence|].
  exists (es ++ es'). split.
  - rewrite Hl', Hl, app_assoc. reflexivity.
  - rewrite forallb_app, Hes. rewrite Hd in Hes'. rewrite Hes'. reflexivity.
Qed.

Lemma replies_only_modify (f : World -> World) :
  (forall w, _data (f w) = _data w /\ log (f w) = log w) ->
  replies_only (modify f).
Proof.
  intros Hf w a w' E. inversion E. destruct (Hf w) as [Hd Hl].
  split; [exact Hd|]. exists []. rewrite app_nil_r. split; [exact Hl|reflexivity].
Qed.

Lemma replies_only_send (options : Api.SendOptions) :
  replies_only (send options).
Proof.
  intros w a w' E. destruct (user (_data w)) as [u|] eqn:Hu.
  - rewrite (send_run w u options Hu _ _
               (prepareSendAction_run w u options Hu) eq_refl) in E.
    inversion E. split; [reflexivity|]. eexists. split; [reflexivity|].
    rewrite forallb_app. apply andb_true_iff. split.
    + destruct (isEmpty _); reflexivity.
    + simpl. unfold sent_for. simpl.
      rewrite (replies_to_story_intro _ u); [reflexivity|exact Hu| |];
        reflexivity.
  - unfold send, prepareSendAction in E. unfold_M. rewrite Hu in E.
    discriminate E.
Qed.

Lemma replies_only_sendVoice (data : VoiceToSend) :
  replies_only (sendVoice data).
Proof.
  intros w a w' E. destruct (user (_data w)) as [u|] eqn:Hu.
  - rewrite (sendVoice_run w u data Hu _
               (prepareSendAction_run w u _ Hu)) in E.
    inversion E. split; [reflexivity|]. eexists. split; [reflexivity|].
    simpl. unfold sent_for. simpl.
    rewrite (replies_to_story_intro _ u); [reflexivity|exact Hu| |];
      reflexivity.
  - unfold sendVoice, prepareSendAction in E. unfold_M. rewrite Hu in E.
    discriminate E.
Qed.

Lemma replies_only_uploadFile (content : QByteArray) (type : SendMediaType) :
  replies_only (uploadFile content type).
Proof.
  intros w a w' E. destruct (user (_data w)) as [u|] eqn:Hu.
  - rewrite (uploadFile_run w u content type Hu _
               (prepareSendAction_run w u _ Hu)) in E.
    inversion E. split; [reflexivity|]. eexists. split; [reflexivity|].
    simpl. unfold sent_for. simpl.
    rewrite (replies_to_story_intro _ u); [reflexivity|exact Hu| |];
      reflexivity.
  - unfold uploadFile in E. unfold_M. rewrite Hu in E. discriminate E.
Qed.

Lemma forallb_map_sendFiles_call
    (d : ReplyAreaData) (type : SendMediaType) (action : Api.SendAction)
    (caption : TextWithTags) (groups : list Ui.PreparedGroup) :
  replies_to_story d action = true ->
  forallb (sent_for d) (map (sendFiles_call type action caption) groups)
  = true.
Proof.
  intros Ha. induction groups as [|g groups IH]; [reflexivity|].
  simpl. unfold sent_for at 1. simpl. rewrite Ha, IH. reflexivity.
Qed.

Lemma forallb_sendFiles_calls
    (d : ReplyAreaData) (type : SendMediaType) (action : Api.SendAction)
    (caption : TextWithTags) (groups : list Ui.PreparedGroup) :
  replies_to_story d action = true ->
  forallb (sent_for d) (sendFiles_calls type action caption groups) = true.
Proof.
  intros Ha. destruct groups as [|g rest]; [reflexivity|].
  simpl. unfold sent_for at 1. simpl.
  rewrite Ha, forallb_map_sendFiles_call by exact Ha. reflexivity.
Qed.

Lemma is_nil_true {A} (l : list A) : is_nil l = true -> l = [].
Proof. destruct l; [reflexivity|discriminate]. Qed.

Lemma replies_only_sendingFilesConfirmed
    (prepared : Ui.PreparedList) (way : Ui.SendFilesWay)
    (caption : TextWithTags) (options : Api.SendOptions)
    (ctrlShiftEnter : bool) :
  replies_only
    (sendingFilesConfirmed prepared way caption options ctrlShiftEnter).
Proof.
  intros w a w' E.
  destruct (is_nil (Ui.filesToProcess prepared)) eqn:Hp.
  2:{ unfold sendingFilesConfirmed in E. rewrite Hp in E. discriminate E. }
  apply is_nil_true in Hp.
  destruct (showSendingFilesError prepared
              (Some (Ui.sendImagesAsPhotos way)) w)
    as [[|] w1|what] eqn:Es.
  - rewrite (sendingFilesConfirmed_stops_on_error w w1 _ _ _ _ _ Hp Es) in E.
    inversion E. subst w1.
    exact (replies_only_of_quiet _
             (quiet_showSendingFilesError _ _) _ _ _ Es).
  - pose proof (showSendingFilesError_false _ _ _ _ Es) as ->.
    destruct (user (_data w)) as [u|] eqn:Hu.
    + rewrite (sendingFilesConfirmed_run w u prepared way caption options
                 ctrlShiftEnter Hu Hp Es _ _ _ _ _
                 (prepareSendAction_run w u options Hu)
                 eq_refl eq_refl eq_refl eq_refl) in E.
      inversion E. split; [reflexivity|]. eexists. split; [reflexivity|].
      assert (Ha : forall pa,
                 pa = {| Api.history := owner_history u;
                         Api.options :=
                           {| Api.sendAs := HistoryView.sendAsPeer (_controls w);
                              Api.scheduled := Api.scheduled options;
                              Api.silent := Api.silent options |};
                         Api.replyTo :=
                           {| Api.msgId := 0%Z;
                              Api.storyId :=
                                {| Api.peer := user_id u;
                                   Api.story := id (_data w) |} |};
                         Api.clearDraft := true |} ->
                 replies_to_story (_data w) (with_clearDraft pa false) = true).
      { intros pa ->.
        apply (replies_to_story_intro _ u); [exact Hu|reflexivity|reflexivity]. }
      specialize (Ha _ eq_refl).
      rewrite !forallb_app. rewrite forallb_sendFiles_calls by exact Ha.
      destruct (captionGoesFirst _ && _); simpl;
        [unfold sent_for; simpl; rewrite Ha|]; reflexivity.
    + unfold sendingFilesConfirmed in E. rewrite Hp in E. simpl in E.
      unfold bind at 1 in E. rewrite Es in E.
      unfold_M. rewrite Hu in E. discriminate E.
  - unfold sendingFilesConfirmed in E. rewrite Hp in E. simpl in E.
    unfold bind at 1 in E. rewrite Es in E. discriminate E.
Qed.

Lemma replies_only_chooseAttach_callback
    (overrideSendImagesAsPhotos : option bool)
    (result : FileDialog.OpenResult) :
  replies_only (chooseAttach_callback overrideSendImagesAsPhotos result).
Proof.
  unfold chooseAttach_callback. cbv zeta.
  destruct (is_nil _ && isEmpty _).
  { apply replies_only_of_quiet, quiet_ret. }
  destruct (negb (isEmpty _)).
  - destruct (negb (isNull _) && negb (animated _)).
    + apply replies_only_of_quiet. apply quiet_bind.
      * apply quiet_confirmSendingFiles_image.
      * intros ?. apply quiet_ret.
    + apply replies_only_uploadFile.
  - apply replies_only_of_quiet. apply quiet_bind; [apply quiet_session|].
    intros u. apply quiet_bind; [apply quiet_confirmSendingFiles_list|].
    intros ?. apply quiet_ret.
Qed.

Lemma replies_only_chooseAttach (overrideSendImagesAsPhotos : option bool) :
  replies_only (chooseAttach overrideSendImagesAsPhotos).
Proof.
  intros w a w' E. destruct (user (_data w)) as [u|] eqn:Hu.
  - destruct (AnyFileRestrictionError u) as [error|] eqn:He.
    + rewrite (chooseAttach_stops_on_error w u error _ Hu He) in E.
      inversion E. split; [reflexivity|]. eexists. split; reflexivity.
    + rewrite (chooseAttach_opens_dialog w u _ Hu He) in E.
      inversion E. split; [reflexivity|]. eexists. split; reflexivity.
  - rewrite (chooseAttach_no_user w _ Hu) in E. inversion E.
    split; [reflexivity|]. exists []. rewrite app_nil_r. split; reflexivity.
Qed.

(** Every input but [show] keeps the stored record. *)
Lemma step_replies_only (i : Input) :
  match i with
  | showCalled _ => True
  | _ => replies_only (step i)
  end.
Proof.
  destruct i; simpl; try exact I.
  - apply replies_only_of_quiet. unfold on_cancelRequests.
    apply quiet_emit. reflexivity.
  - apply replies_only_send.
  - apply replies_only_sendVoice.
  - intros w a w' E. destruct (_choosingAttach w) eqn:Hf.
    + rewrite (on_attachRequests_filtered _ _ Hf) in E. inversion E.
      split; [reflexivity|]. exists []. rewrite app_nil_r. split; reflexivity.
    + rewrite (on_attachRequests_accepted _ _ Hf) in E. inversion E.
      split; [reflexivity|]. eexists. split; reflexivity.
  - apply replies_only_of_quiet. unfold on_fileChosen.
    apply quiet_emit. reflexivity.
  - apply replies_only_of_quiet, quiet_ret.
  - apply replies_only_of_quiet, quiet_ret.
  - apply replies_only_of_quiet. unfold mimeDataHook.
    apply quiet_bind; [destruct action; apply quiet_ret|].
    intros ?. apply quiet_ret.
  - apply replies_only_of_quiet, quiet_ret.
  - unfold on_timerFired. apply replies_only_bind.
    + apply replies_only_of_quiet, quiet_gets.
    + intros pending. destruct (nth_error pending n).
      * apply replies_only_bind; [|intros ?; apply replies_only_chooseAttach].
        apply replies_only_modify. intros w. split; reflexivity.
      * apply replies_only_of_quiet, quiet_ret.
  - unfold on_dialogClosed. apply replies_only_bind.
    + apply replies_only_of_quiet, quiet_gets.
    + intros open. destruct (nth_error open n).
      * apply replies_only_bind.
        -- apply replies_only_modify. intros w. split; reflexivity.
        -- intros ?. apply replies_only_bind.
           ++ apply replies_only_of_quiet, quiet_gets.
           ++ intros object. destruct (alive _ _).
              ** apply replies_only_chooseAttach_callback.
              ** apply replies_only_of_quiet, quiet_ret.
      * apply replies_only_of_quiet, quiet_ret.
  - apply replies_only_sendingFilesConfirmed.
  - apply replies_only_modify. intros w. split; reflexivity.
Qed.

Lemma step_sends_for_stored (i : Input) (w w' : World) :
  step i w = Done tt w' ->
  exists es,
    log w' = log w ++ es
    /\ forallb (sent_for (_data w)) es = true.
Proof.
  intros E. pose proof (step_replies_only i) as K.
  destruct i; try (destruct (K _ _ _ E) as (_ & es & H); exists es; exact H).
  clear K. simpl in E.
  destruct (ReplyAreaData_eqb (_data w) data) eqn:Hd.
  - apply ReplyAreaData_eqb_eq in Hd.
    rewrite (show_stored w data) in E by congruence. inversion E.
    exists []. rewrite app_nil_r. split; reflexivity.
  - apply ReplyAreaData_eqb_neq in Hd.
    destruct (UserPtr_opt_eqb (user data) (user (_data w))) eqn:Hu.
    + apply UserPtr_opt_eqb_eq in Hu.
      destruct (user data) as [u|] eqn:Hs.
      * rewrite (show_same_user w data u) in E by congruence.
        inversion E. eexists. split; reflexivity.
      * rewrite (show_no_user w data) in E by congruence.
        inversion E. exists []. rewrite app_nil_r. split; reflexivity.
    + apply UserPtr_opt_eqb_neq in Hu.
      rewrite (show_user_changed w data Hu) in E. inversion E.
      eexists. split; reflexivity.
Qed.

(** X8: whatever happens to the object (a signal of the compose
    controls, the timer, a file dialog reporting, the send-files box
    confirmed, [show], typing), every message, voice note or file that
    the step hands to the session API carries an action that targets the
    history of the stored user and replies to the stored story, as they
    were stored when the step began. *)
Theorem session_calls_reply_to_stored_story :
  forall (i : Input) (w w' : World) (e : Effect) (a : Api.SendAction),
    step i w = Done tt w' ->
    In e (logged_since w w') ->
    action_of e = Some a ->
    exists u,
      user (_data w) = Some u
      /\ Api.history a = owner_history u
      /\ Api.peer (Api.storyId (Api.replyTo a)) = user_id u
      /\ Api.story (Api.storyId (Api.replyTo a)) = id (_data w).
Proof.
  intros i w w' e a E Hin Ha.
  destruct (step_sends_for_stored i w w' E) as (es & Hl & Hes).
  rewrite (logged_since_app w es w' Hl) in Hin.
  rewrite forallb_forall in Hes. specialize (Hes e Hin).
  unfold sent_for in Hes. rewrite Ha in Hes.
  apply replies_to_story_elim. exact Hes.
Qed.

(** X9: while no user is stored, nothing reaches the session API: no
    input makes the object send a message, a voice note or a file. *)
Theorem nothing_is_sent_without_user :
  forall (i : Input) (w w' : World),
    user (_data w) = None ->
    step i w = Done tt w' ->
    hands_to_session w w' = false.
Proof.
  intros i w w' Hu E.
  destruct (step_sends_for_stored i w w' E) as (es & Hl & Hes).
  unfold hands_to_session. rewrite (logged_since_app w es w' Hl).
  apply (sent_for_without_user (_data w)); assumption.
Qed.

End Replying.

Section Attaching.

Context {collaborators : Collaborators}.

(** ** The callback of the file dialog *)

(** X12: with a user shown, remote content that does not decode to a
    still image (no image, or an animated one) is uploaded as a file:
    the callback makes one call, [sendFile] with the content, type
    [File] and default options but for [sendAs], replying to the
    current story.  It does not go through [finishSending]: the panels
    and the focus are left alone, and so is the input field. *)
Theorem dialog_remote_content_is_uploaded :
  forall (w : World) (u : UserPtr) (overrideSendImagesAsPhotos : option bool)
         (result : FileDialog.OpenResult),
    user (_data w) = Some u ->
    FileDialog.remoteContent result <> "" ->
    (isNull (image (Images_Read (FileDialog.remoteContent result))) = true
     \/ animated (Images_Read (FileDialog.remoteContent result)) = true) ->
    exists action,
      chooseAttach_callback overrideSendImagesAsPhotos result w =
        Done tt
          (set_log
             (log w ++
                [api_sendFile (FileDialog.remoteContent result)
                   SendMediaType_File action])
             w)
      /\ replies_to_story (_data w) action = true
      /\ Api.options action
         = {| Api.sendAs := HistoryView.sendAsPeer (_controls w);
              Api.scheduled := 0%Z;
              Api.silent := false |}.
Proof.
  intros w u o result Hu Hc Hread.
  eexists. split; [|split].
  - unfold chooseAttach_callback. cbv zeta.
    apply isEmpty_false in Hc. rewrite Hc, andb_false_r. cbn [negb].
    assert (Hi : negb (isNull (image (Images_Read
                                        (FileDialog.remoteContent result))))
                 && negb (animated (Images_Read
                                      (FileDialog.remoteContent result)))
                 = false).
    { destruct Hread as [-> | ->]; [reflexivity|apply andb_false_r]. }
    rewrite Hi.
    apply (uploadFile_run w u _ _ Hu _
             (prepareSendAction_run w u Api.SendOptions_default Hu)).
  - apply (replies_to_story_intro _ u); [exact Hu|reflexivity|reflexivity].
  - reflexivity.
Qed.

(** X13: a dialog that reports nothing (no path and no remote content,
    as when it is cancelled) is only removed from the queue of open
    dialogs, whether its handle is live or not. *)
Theorem dialog_without_result_changes_nothing :
  forall (w : World) (n : nat) (result : FileDialog.OpenResult),
    FileDialog.paths result = [] ->
    FileDialog.remoteContent result = "" ->
    step (dialogClosed n result) w = Done tt (dialog_dropped n w).
Proof.
  intros w n result Hp Hc. simpl. unfold on_dialogClosed. unfold_M.
  unfold dialog_dropped.
  destruct (nth_error (dialogs w) n) as [d|] eqn:Hn.
  - simpl. destruct (alive _ _); [|reflexivity].
    unfold chooseAttach_callback. rewrite Hp, Hc. reflexivity.
  - rewrite (remove_nth_none _ _ Hn). destruct w; reflexivity.
Qed.

(** The callback on picked paths that prepare to a clean list. *)
Lemma chooseAttach_callback_paths
    (w : World) (u : UserPtr) (overrideSendImagesAsPhotos : option bool)
    (result : FileDialog.OpenResult) (prepared : Ui.PreparedList) :
  user (_data w) = Some u ->
  FileDialog.paths result <> [] ->
  FileDialog.remoteContent result = "" ->
  prepared
  = Ui.with_override
      (PrepareMediaList (FileDialog.paths result) (session_premium u))
      overrideSendImagesAsPhotos ->
  confirmMediaEdit prepared = false ->
  FileRestrictionError (Some u) prepared None = None ->
  Ui.error prepared = Ui.Error.None ->
  chooseAttach_callback overrideSendImagesAsPhotos result w =
    Done tt
      (set_log
         (log w ++
            [show_SendFilesBox
               {| box_list := prepared;
                  box_caption := HistoryView.field (_controls w);
                  box_peer := Some u;
                  box_insertTextOnCancel := "" |}])
         w).
Proof.
  intros Hu Hp Hc -> Hm Hr He.
  unfold chooseAttach_callback. cbv zeta. rewrite Hc.
  destruct (FileDialog.paths result) as [|p ps] eqn:Ep;
    [contradiction Hp; reflexivity|].
  cbn [is_nil isEmpty andb negb].
  unfold bind at 1. unfold session. unfold bind at 1. unfold gets at 1.
  rewrite Hu. unfold ret at 1.
  unfold bind at 1.
  rewrite confirmSendingFiles_list_opens_box_run.
  - rewrite Hu. reflexivity.
  - exact Hm.
  - rewrite Hu. exact Hr.
  - exact He.
Qed.

(** A live dialog reporting paths that prepare to a clean list. *)
Lemma on_dialogClosed_paths :
  forall (w : World) (n : nat) (d : OpenDialog) (u : UserPtr)
         (result : FileDialog.OpenResult) (prepared : Ui.PreparedList),
    nth_error (dialogs w) n = Some d ->
    alive (guard d) (_shownUserGuard w) = true ->
    user (_data w) = Some u ->
    FileDialog.paths result <> [] ->
    FileDialog.remoteContent result = "" ->
    prepared
    = Ui.with_override
        (PrepareMediaList (FileDialog.paths result) (session_premium u))
        (captured_override d) ->
    confirmMediaEdit prepared = false ->
    FileRestrictionError (Some u) prepared None = None ->
    Ui.error prepared = Ui.Error.None ->
    step (dialogClosed n result) w =
      Done tt
        (set_log
           (log w ++
              [show_SendFilesBox
                 {| box_list := prepared;
                    box_caption := HistoryView.field (_controls w);
                    box_peer := Some u;
                    box_insertTextOnCancel := "" |}])
           (dialog_dropped n w)).
Proof.
  intros w n d u result prepared Hn Ha Hu Hp Hc Hl Hm Hr He.
  simpl. unfold on_dialogClosed. unfold_M.
  rewrite Hn. simpl. rewrite Ha.
  apply (chooseAttach_callback_paths (set_dialogs (remove_nth n (dialogs w)) w)
           u (captured_override d) result prepared); assumption.
Qed.

(** X14: a dialog whose handle is live reports paths while a user is
    shown.  If the list prepared from them (with the session's premium
    state) is not taken as a media edit, has no error and the recipient
    is not restricted, the dialog leaves the queue and the send-files
    box is opened for that list with the photo override that was
    captured when [chooseAttach] ran, the current input text as caption
    and no text to put back on cancel. *)
Theorem dialog_paths_open_send_files_box :
  forall (w : World) (n : nat) (d : OpenDialog) (u : UserPtr)
         (result : FileDialog.OpenResult) (prepared : Ui.PreparedList),
    nth_error (dialogs w) n = Some d ->
    alive (guard d) (_shownUserGuard w) = true ->
    user (_data w) = Some u ->
    FileDialog.paths result <> [] ->
    FileDialog.remoteContent result = "" ->
    prepared
    = Ui.with_override
        (PrepareMediaList (FileDialog.paths result) (session_premium u))
        (captured_override d) ->
    confirmMediaEdit prepared = false ->
    FileRestrictionError (Some u) prepared None = None ->
    Ui.error prepared = Ui.Error.None ->
    step (dialogClosed n result) w =
      Done tt
        (set_log
           (log w ++
              [show_SendFilesBox
                 {| box_list := prepared;
                    box_caption := HistoryView.field (_controls w);
                    box_peer := Some u;
                    box_insertTextOnCancel := "" |}])
           (dialog_dropped n w)).
Proof.
  intros w n d u result prepared Hn Ha Hu Hp Hc Hl Hm Hr He.
  exact (on_dialogClosed_paths w n d u result prepared
           Hn Ha Hu Hp Hc Hl Hm Hr He).
Qed.

(** ** From the attach button to the send-files box *)

Lemma nth_error_last {A} (l : list A) (x : A) :
  nth_error (l ++ [x]) (List.length l) = Some x.
Proof. induction l as [|y l IH]; [reflexivity|exact IH]. Qed.

Lemma remove_nth_last {A} (l : list A) (x : A) :
  remove_nth (List.length l) (l ++ [x]) = l.
Proof.
  induction l as [|y l IH]; [reflexivity|]. simpl. rewrite IH. reflexivity.
Qed.

(** The attach request and its timer, with an unrestricted user. *)
Lemma attach_then_timer
    (w : World) (u : UserPtr) (overrideCompress : option bool) :
  _choosingAttach w = false ->
  delayed w = [] ->
  user (_data w) = Some u ->
  AnyFileRestrictionError u = None ->
  run [attachRequests overrideCompress; timerFired 0] w =
    Done tt
      (set_dialogs
         (dialogs w ++
            [{| guard := make_weak (_shownUserGuard w);
                captured_override := overrideCompress;
                opened_under := u |}])
         (set_log
            (log w ++
               [call_delayed overrideCompress;
                GetOpenPaths
                  (if is_true overrideCompress
                   then FileDialog.ImagesOrAllFilter
                   else FileDialog.AllOrImagesFilter)])
            w)).
Proof.
  intros Hf Hd Hu He.
  cbn [run step]. unfold bind at 1.
  rewrite (on_attachRequests_accepted w _ Hf).
  unfold bind at 1.
  rewrite (on_timerFired_some _ 0 overrideCompress)
    by (simpl; rewrite Hd; reflexivity).
  rewrite (chooseAttach_opens_dialog _ u) by assumption.
  unfold ret. destruct w. simpl in *. subst.
  unfold set_dialogs, set_log, set_choosingAttach, set_delayed. simpl.
  rewrite <- app_assoc. reflexivity.
Qed.

(** X15: in a world the object can be in, with the flag down and an
    unrestricted user shown, an attach request followed by its timer
    requests exactly one file dialog, with the image filter first
    exactly when the override is [true], guarded by the handle that is
    live now.  The flag is down again afterwards and no delayed call is
    left: apart from the timer call, the dialog request and the new
    open dialog the world is as before. *)
Theorem attach_request_opens_one_dialog :
  forall (w : World) (u : UserPtr) (overrideCompress : option bool),
    reachable w ->
    _choosingAttach w = false ->
    user (_data w) = Some u ->
    AnyFileRestrictionError u = None ->
    run [attachRequests overrideCompress; timerFired 0] w =
      Done tt
        (set_dialogs
           (dialogs w ++
              [{| guard := make_weak (_shownUserGuard w);
                  captured_override := overrideCompress;
                  opened_under := u |}])
           (set_log
              (log w ++
                 [call_delayed overrideCompress;
                  GetOpenPaths
                    (if is_true overrideCompress
                     then FileDialog.ImagesOrAllFilter
                     else FileDialog.AllOrImagesFilter)])
              w)).
Proof.
  intros w u o Hr Hf Hu He.
  apply attach_then_timer; try assumption.
  destruct (reachable_one_chooser_pending w Hr) as [_ Hup].
  destruct (delayed w) as [|x l]; [reflexivity|].
  assert (F : _choosingAttach w = true) by (apply Hup; discriminate).
  congruence.
Qed.

(** X16: the whole way.  In a world the object can be in, with the flag
    down and an unrestricted user shown: the attach request, its timer,
    and the new dialog reporting paths whose prepared list is clean.
    The send-files box opens for that list, with the override of the
    request; the flag is down, both queues are as before, and all that
    was called is the timer, the file dialog and the box.  Nothing has
    been sent yet. *)
Theorem attach_flow_ends_in_send_files_box :
  forall (w : World) (u : UserPtr) (overrideCompress : option bool)
         (result : FileDialog.OpenResult) (prepared : Ui.PreparedList),
    reachable w ->
    _choosingAttach w = false ->
    user (_data w) = Some u ->
    AnyFileRestrictionError u = None ->
    FileDialog.paths result <> [] ->
    FileDialog.remoteContent result = "" ->
    prepared
    = Ui.with_override
        (PrepareMediaList (FileDialog.paths result) (session_premium u))
        overrideCompress ->
    confirmMediaEdit prepared = false ->
    FileRestrictionError (Some u) prepared None = None ->
    Ui.error prepared = Ui.Error.None ->
    run [attachRequests overrideCompress;
         timerFired 0;
         dialogClosed (List.length (dialogs w)) result] w =
      Done tt
        (set_log
           (log w ++
              [call_delayed overrideCompress;
               GetOpenPaths
                 (if is_true overrideCompress
                  then FileDialog.ImagesOrAllFilter
                  else FileDialog.AllOrImagesFilter);
               show_SendFilesBox
                 {| box_list := prepared;
                    box_caption := HistoryView.field (_controls w);
                    box_peer := Some u;
                    box_insertTextOnCancel := "" |}])
           w).
Proof.
  intros w u o result prepared Hr Hf Hu He Hp Hc Hl Hm Hres Herr.
  assert (Hd : delayed w = []).
  { destruct (reachable_one_chooser_pending w Hr) as [_ Hup].
    destruct (delayed w) as [|x l]; [reflexivity|].
    assert (F : _choosingAttach w = true) by (apply Hup; discriminate).
    congruence. }
  change [attachRequests o; timerFired 0;
          dialogClosed (List.length (dialogs w)) result]
    with ([attachRequests o; timerFired 0]
            ++ [dialogClosed (List.length (dialogs w)) result]).
  eapply run_app; [apply (attach_then_timer w u o Hf Hd Hu He)|].
  cbn [run]. unfold bind at 1.
  erewrite on_dialogClosed_paths with (u := u) (prepared := prepared).
  - unfold ret, dialog_dropped. simpl.
    rewrite remove_nth_last.
    destruct w. simpl in *. subst.
    unfold set_log, set_dialogs. simpl.
    rewrite <- app_assoc. reflexivity.
  - simpl. apply nth_error_last.
  - simpl. apply Nat.eqb_refl.
  - exact Hu.
  - exact Hp.
  - exact Hc.
  - exact Hl.
  - exact Hm.
  - exact Hres.
  - exact Herr.
Qed.

(** ** What holds in every world the object can be in *)

(** X17: at any time at most one delayed [chooseAttach] is waiting for
    its timer, and while one is waiting [_choosingAttach] is [true]. *)
Theorem at_most_one_delayed_chooser :
  forall w : World,
    reachable w ->
    List.length (delayed w) <= 1
    /\ (delayed w <> [] -> _choosingAttach w = true).
Proof.
  intros w Hr. exact (reachable_one_chooser_pending w Hr).
Qed.

(** X18: at any time the compose controls target the conversation
    history of the stored user, and no history when no user is stored:
    [show] is the only writer of both and keeps them together. *)
Theorem controls_target_stored_user :
  forall w : World,
    reachable w ->
    HistoryView.history (_controls w)
    = option_map owner_history (user (_data w)).
Proof.
  intros w Hr. exact (reachable_history_follows_user w Hr).
Qed.

(** X19: [show] never fails, it leaves the record it was given in
    [_data], and showing the same record again changes nothing. *)
Theorem show_is_idempotent :
  forall (w : World) (data : ReplyAreaData),
    exists w',
      show data w = Done tt w'
      /\ _data w' = data
      /\ show data w' = Done tt w'.
Proof.
  intros w data.
  assert (H : exists w', show data w = Done tt w' /\ _data w' = data).
  { destruct (ReplyAreaData_eqb (_data w) data) eqn:Hd.
    - apply ReplyAreaData_eqb_eq in Hd. exists w.
      split; [apply show_stored|]; congruence.
    - apply ReplyAreaData_eqb_neq in Hd.
      destruct (UserPtr_opt_eqb (user data) (user (_data w))) eqn:Hu.
      + apply UserPtr_opt_eqb_eq in Hu.
        destruct (user data) as [u|] eqn:Hs.
        * eexists. split; [apply (show_same_user w data u); congruence|].
          reflexivity.
        * eexists. split; [apply (show_no_user w data); congruence|].
          reflexivity.
      + apply UserPtr_opt_eqb_neq in Hu.
        eexists. split; [apply (show_user_changed w data Hu)|reflexivity]. }
  destruct H as (w' & E & Hd). exists w'.
  split; [exact E|]. split; [exact Hd|].
  apply show_stored. congruence.
Qed.

(** X20: while a delayed [chooseAttach] is waiting for its timer,
    every further attach request is dropped: it starts no second timer
    and changes nothing at all. *)
Theorem attach_requests_dropped_while_pending :
  forall (w : World) (overrideCompress : option bool),
    reachable w ->
    delayed w <> [] ->
    step (attachRequests overrideCompress) w = Done tt w.
Proof.
  intros w o Hr Hd.
  destruct (reachable_one_chooser_pending w Hr) as [_ Hup].
  simpl. apply on_attachRequests_filtered. apply Hup. exact Hd.
Qed.

End Attaching.

(** A delayed [chooseAttach] that runs with a user takes the flag down. *)
Lemma timer_resets_flag_with_user
    {collaborators : Collaborators}
    (w : World) (n : nat) (overrideCompress : option bool) (u : UserPtr) :
  nth_error (delayed w) n = Some overrideCompress ->
  user (_data w) = Some u ->
  exists w', step (timerFired n) w = Done tt w' /\ _choosingAttach w' = false.
Proof.
  intros Hn Hu. simpl. rewrite (on_timerFired_some w n _ Hn).
  destruct (AnyFileRestrictionError u) as [error|] eqn:He.
  - rewrite (chooseAttach_stops_on_error _ u error) by assumption.
    eexists. split; reflexivity.
  - rewrite (chooseAttach_opens_dialog _ u) by assumption.
    eexists. split; reflexivity.
Qed.

(** * Concrete runs *)

#[local] Existing Instance Sample.collaborators.

Lemma after_reachable (inputs : list Input) (w : World) :
  run inputs constructed = Done tt w -> reachable (after inputs).
Proof.
  intros E. exists inputs. unfold after. rewrite E. reflexivity.
Qed.

(** C1: user 7 may not be written to.  Replying "hello" to their story
    shows the toast and then hands the message to the session API and
    clears the input all the same: [send] has no [return] after the
    toast, where [sendingFilesConfirmed] and [chooseAttach] have one. *)
Theorem restricted_send_is_not_aborted :
  GetErrorTextForSending
    (user (_data world_restricted))
    (HistoryView.field (_controls world_restricted)) false
  = "You can't write to this user."
  /\ exists w',
       send Api.SendOptions_default world_restricted = Done tt w'
       /\ logged_since world_restricted w'
          = [showToast "You can't write to this user.";
             api_sendMessage
               {| Api.action :=
                    {| Api.history := 1007%N;
                       Api.options := Api.SendOptions_default;
                       Api.replyTo :=
                         {| Api.msgId := 0%Z;
                            Api.storyId :=
                              {| Api.peer := 7%Z; Api.story := 42%Z |} |};
                       Api.clearDraft := true |};
                  Api.textWithTags := Sample.plain "hello";
                  Api.webPageId := 0%Z |};
             controls_clear;
             controls_hidePanelsAnimated;
             wrap_setFocus]
       /\ hands_to_session world_restricted w' = true
       /\ HistoryView.field (_controls w') = TextWithTags_empty.
Proof.
  split; [reflexivity|].
  eexists. split; [vm_compute; reflexivity|].
  split; [reflexivity|]. split; reflexivity.
Qed.

(** Against C2 as stated: with user 1 shown, a chosen sticker, a chosen
    photo and a chosen inline result each leave the session API
    untouched. *)
Lemma chosen_items_never_reach_session :
  exists w1 w2 w3,
    on_fileChosen Sample.sticker world_shown = Done tt w1
    /\ hands_to_session world_shown w1 = false
    /\ on_photoChosen Sample.picture world_shown = Done tt w2
    /\ hands_to_session world_shown w2 = false
    /\ on_inlineResultChosen Sample.inline_gif world_shown = Done tt w3
    /\ hands_to_session world_shown w3 = false.
Proof.
  do 3 eexists. repeat split; reflexivity.
Qed.

(** Against C3 as stated: with user 1 shown, a dropped picture file is
    a payload with sendable files, for which [confirmSendingFiles]
    would open the send-files box and answer [true]; the hook answers
    [false] to [Check], and to [Insert] it answers [false] without
    calling anything. *)
Lemma mimeDataHook_ignores_dropped_file :
  containsSendableFiles Sample.dropped_picture = true
  /\ mimeDataHook Sample.dropped_picture Ui.Check world_shown
     = Done false world_shown
  /\ mimeDataHook Sample.dropped_picture Ui.Insert world_shown
     = Done false world_shown
  /\ exists w',
       confirmSendingFiles Sample.dropped_picture None
         (mimeText Sample.dropped_picture) world_shown = Done true w'
       /\ logged_since world_shown w'
          = [show_SendFilesBox
               {| box_list := Sample.prepared ["/home/user/cat.png"];
                  box_caption := TextWithTags_empty;
                  box_peer := Some 1%N;
                  box_insertTextOnCancel := "" |}]
       /\ mimeDataHook Sample.dropped_picture Ui.Insert world_shown
          <> confirmSendingFiles Sample.dropped_picture None
               (mimeText Sample.dropped_picture) world_shown.
Proof.
  repeat split; try reflexivity.
  eexists. split; [vm_compute; reflexivity|].
  split; [reflexivity|]. vm_compute. discriminate.
Qed.

(** Against C4 as stated: before any story with a user is shown, the
    user types "draft"; [show] is then called for another story that has
    no user either.  The record is replaced and the text stays. *)
Lemma show_without_user_keeps_input :
  Sample.no_story 1 <> _data world_draft
  /\ exists w',
       show (Sample.no_story 1) world_draft = Done tt w'
       /\ _data w' = Sample.no_story 1
       /\ HistoryView.field (_controls w') = Sample.plain "draft"
       /\ HistoryView.field (_controls w') <> TextWithTags_empty
       /\ logged_since world_draft w' = [].
Proof.
  split; [discriminate|].
  eexists. split; [vm_compute; reflexivity|].
  repeat split. discriminate.
Qed.

(** C5: an attach request is accepted while no user is shown and the
    timer fires: the flag is still up with nothing left to take it
    down.  Showing user 1 afterwards does not help: the next attach
    request is filtered out, no timer is started and no file dialog is
    requested.  The early return of [chooseAttach] comes before
    [_choosingAttach = false]. *)
Theorem attach_flag_not_reset_without_user :
  run [attachRequests None; timerFired 0] constructed
  = Done tt world_flag_up
  /\ _choosingAttach world_flag_up = true
  /\ delayed world_flag_up = []
  /\ dialogs world_flag_up = []
  /\ exists w',
       run [showCalled (Sample.story 1 42); attachRequests None; timerFired 0]
         world_flag_up = Done tt w'
       /\ _choosingAttach w' = true
       /\ logged_since world_flag_up w'
          = [controls_setHistory (Some 1001%N); controls_clear].
Proof.
  repeat split. eexists. split; [vm_compute; reflexivity|].
  split; reflexivity.
Qed.

(** ** The general statements at explicit inputs *)

(** User 1 is shown with "hi" typed and the viewer moves on to a story
    of user 2. *)
Lemma show_replaces_stored_record_witness :
  reachable world_typing
  /\ Sample.story 2 43 <> _data world_typing
  /\ exists w',
       show (Sample.story 2 43) world_typing = Done tt w'
       /\ _data w' = Sample.story 2 43
       /\ HistoryView.history (_controls w')
          = option_map owner_history (user (Sample.story 2 43))
       /\ (user (Sample.story 2 43) <> user (_data world_typing) ->
           logged_since world_typing w'
           = [controls_setHistory
                (option_map owner_history (user (Sample.story 2 43)));
              controls_clear]
           /\ HistoryView.field (_controls w') = TextWithTags_empty)
       /\ (user (Sample.story 2 43) = user (_data world_typing) ->
           user (Sample.story 2 43) <> None ->
           logged_since world_typing w' = [controls_clear]
           /\ HistoryView.field (_controls w') = TextWithTags_empty)
       /\ (user (Sample.story 2 43) = user (_data world_typing) ->
           user (Sample.story 2 43) = None ->
           w' = set_data (Sample.story 2 43) world_typing).
Proof.
  assert (R : reachable world_typing).
  { apply (after_reachable _ world_typing). reflexivity. }
  assert (D : Sample.story 2 43 <> _data world_typing).
  { vm_compute. discriminate. }
  split; [exact R|]. split; [exact D|].
  exact (show_replaces_stored_record world_typing (Sample.story 2 43) R D).
Defined.

(** User 1 is shown with "hi" typed and the text is sent. *)
Lemma send_replies_to_current_story_witness :
  user (_data world_typing) = Some 1%N
  /\ exists (message : Api.MessageToSend) (toast : list Effect),
       send Api.SendOptions_default world_typing =
         Done tt
           (set_controls (HistoryView.clear (_controls world_typing))
              (set_log
                 (log world_typing ++ toast ++
                    [api_sendMessage message;
                     controls_clear;
                     controls_hidePanelsAnimated;
                     wrap_setFocus])
                 world_typing))
       /\ Api.history (Api.action message) = owner_history 1%N
       /\ Api.storyId (Api.replyTo (Api.action message))
          = {| Api.peer := user_id 1%N;
               Api.story := id (_data world_typing) |}
       /\ Api.textWithTags message = HistoryView.field (_controls world_typing)
       /\ Api.webPageId message = HistoryView.webPageId (_controls world_typing)
       /\ existsb is_session_send toast = false.
Proof.
  assert (U : user (_data world_typing) = Some 1%N) by reflexivity.
  split; [exact U|].
  exact (send_replies_to_current_story
           world_typing 1%N Api.SendOptions_default U).
Defined.

(** User 1 is shown and the list holds one file of 5 GB. *)
Lemma showSendingFilesError_reports_witness :
  user (_data world_shown) = Some 1%N
  /\ (forall e, FileRestrictionError (Some 1%N) too_large None = Some e ->
                e <> "" /\ e <> "(toolarge)")
  /\ lng_send_image_empty (Ui.errorData too_large) <> ""
  /\ lng_send_image_empty (Ui.errorData too_large) <> "(toolarge)"
  /\ (Ui.error too_large = Ui.Error.TooLargeFile -> Ui.files too_large <> [])
  /\ exists (shown : bool) (notes : list Effect),
       showSendingFilesError too_large None world_shown
         = Done shown (set_log (log world_shown ++ notes) world_shown)
       /\ (shown = false <->
             FileRestrictionError (Some 1%N) too_large None = None
             /\ Ui.error too_large = Ui.Error.None)
       /\ (shown = false -> notes = [])
       /\ (shown = true ->
             notes =
               [match FileRestrictionError (Some 1%N) too_large None,
                      Ui.error too_large with
                | Some e, _ => showToast e
                | None, Ui.Error.TooLargeFile =>
                    showBox_FileSizeLimitBox
                      (Ui.size
                         (last (Ui.files too_large)
                            {| Ui.path := ""; Ui.size := 0 |}))
                | None, _ =>
                    showToast (lng_send_image_empty (Ui.errorData too_large))
                end]).
Proof.
  assert (U : user (_data world_shown) = Some 1%N) by reflexivity.
  assert (R : forall e,
             FileRestrictionError (Some 1%N) too_large None = Some e ->
             e <> "" /\ e <> "(toolarge)").
  { intros e H. vm_compute in H. discriminate H. }
  assert (E1 : lng_send_image_empty (Ui.errorData too_large) <> "").
  { vm_compute. discriminate. }
  assert (E2 : lng_send_image_empty (Ui.errorData too_large) <> "(toolarge)").
  { vm_compute. discriminate. }
  assert (F : Ui.error too_large = Ui.Error.TooLargeFile ->
              Ui.files too_large <> []).
  { intros _. vm_compute. discriminate. }
  split; [exact U|]. split; [exact R|]. split; [exact E1|].
  split; [exact E2|]. split; [exact F|].
  exact (showSendingFilesError_reports
           world_shown too_large None 1%N U R E1 E2 F).
Defined.

(** An attach request has been accepted before any user was shown. *)
Lemma attach_flag_stays_up_without_user_witness :
  reachable world_waiting
  /\ nth_error (delayed world_waiting) 0 = Some None
  /\ user (_data world_waiting) = None
  /\ exists w',
       step (timerFired 0) world_waiting = Done tt w'
       /\ w' = set_delayed [] world_waiting
       /\ _choosingAttach w' = true
       /\ forall inputs w'',
            run inputs w' = Done tt w'' ->
            _choosingAttach w'' = true
            /\ attachRequests_filter w'' = false
            /\ forall o, step (attachRequests o) w'' = Done tt w''.
Proof.
  assert (R : reachable world_waiting).
  { apply (after_reachable _ world_waiting). reflexivity. }
  assert (P : nth_error (delayed world_waiting) 0 = Some None)
    by reflexivity.
  assert (U : user (_data world_waiting) = None) by reflexivity.
  split; [exact R|]. split; [exact P|]. split; [exact U|].
  exact (attach_flag_stays_up_without_user world_waiting 0 None R P U).
Defined.

(** User 1 is shown and the file dialog is open. *)
Lemma dialog_callback_guarded_by_user_witness :
  reachable world_dialog
  /\ In dialog_of_user_1 (dialogs world_dialog)
  /\ (forall u o,
        user (_data world_dialog) = Some u ->
        AnyFileRestrictionError u = None ->
        exists w',
          chooseAttach o world_dialog = Done tt w'
          /\ dialogs w'
             = dialogs world_dialog ++
                 [{| guard := make_weak (_shownUserGuard world_dialog);
                     captured_override := o;
                     opened_under := u |}])
  /\ (alive (guard dialog_of_user_1) (_shownUserGuard world_dialog) = true ->
      user (_data world_dialog) = Some (opened_under dialog_of_user_1))
  /\ (forall data,
        exists w',
          show data world_dialog = Done tt w'
          /\ (user data <> user (_data world_dialog) ->
              _shownUserGuard w'
              = invalidate_weak_ptrs (_shownUserGuard world_dialog))
          /\ (user data = user (_data world_dialog) ->
              _shownUserGuard w' = _shownUserGuard world_dialog)
          /\ (alive (guard dialog_of_user_1) (_shownUserGuard w') = true <->
              alive (guard dialog_of_user_1) (_shownUserGuard world_dialog)
              = true
              /\ user data = user (_data world_dialog)))
  /\ (forall inputs w',
        run inputs world_dialog = Done tt w' ->
        user (_data w') <> Some (opened_under dialog_of_user_1) ->
        forall inputs' w'',
          run inputs' w' = Done tt w'' ->
          alive (guard dialog_of_user_1) (_shownUserGuard w'') = false
          /\ forall n result,
               nth_error (dialogs w'') n = Some dialog_of_user_1 ->
               step (dialogClosed n result) w''
               = Done tt (dialog_dropped n w'')).
Proof.
  assert (R : reachable world_dialog).
  { apply (after_reachable _ world_dialog). reflexivity. }
  assert (I : In dialog_of_user_1 (dialogs world_dialog)).
  { left. reflexivity. }
  split; [exact R|]. split; [exact I|].
  exact (dialog_callback_guarded_by_user world_dialog dialog_of_user_1 R I).
Defined.

(** ** More general statements at explicit inputs *)

Lemma world_shown_reachable : reachable world_shown.
Proof. apply (after_reachable _ world_shown). reflexivity. Qed.

Lemma world_typing_reachable : reachable world_typing.
Proof. apply (after_reachable _ world_typing). reflexivity. Qed.

Lemma world_waiting_reachable : reachable world_waiting.
Proof. apply (after_reachable _ world_waiting). reflexivity. Qed.

(** User 1 is shown with "hi" typed and a voice note is sent. *)
Lemma sendVoice_replies_and_keeps_text_witness :
  user (_data world_typing) = Some 1%N
  /\ exists action,
       sendVoice voice_note world_typing =
         Done tt
           (set_log
              (log world_typing ++
                 [api_sendVoiceMessage voice_note action;
                  controls_clearListenState;
                  controls_hidePanelsAnimated;
                  wrap_setFocus])
              world_typing)
       /\ replies_to_story (_data world_typing) action = true
       /\ Api.scheduled (Api.options action)
          = Api.scheduled (voice_options voice_note)
       /\ Api.sendAs (Api.options action)
          = HistoryView.sendAsPeer (_controls world_typing).
Proof.
  assert (U : user (_data world_typing) = Some 1%N) by reflexivity.
  split; [exact U|].
  exact (sendVoice_replies_and_keeps_text world_typing 1%N voice_note U).
Defined.

(** Nothing has been shown yet. *)
Lemma sending_without_user_violates_contract_witness :
  user (_data constructed) = None
  /\ (forall options,
        send options constructed
        = Violation "Expects(_data.user != nullptr)")
  /\ (forall data,
        sendVoice data constructed
        = Violation "Expects(_data.user != nullptr)")
  /\ (forall content type,
        uploadFile content type constructed
        = Violation "Expects(_data.user != nullptr)")
  /\ (forall data overrideSendImagesAsPhotos insertTextOnCancel,
        confirmSendingFiles data overrideSendImagesAsPhotos
          insertTextOnCancel constructed
        = Violation "Expects(_data.user != nullptr)").
Proof.
  assert (U : user (_data constructed) = None) by reflexivity.
  split; [exact U|].
  exact (sending_without_user_violates_contract constructed U).
Defined.

(** User 1 is shown; two files are confirmed with the caption "look". *)
Lemma sendingFilesConfirmed_sends_caption_once_witness :
  user (_data world_typing) = Some 1%N
  /\ Ui.filesToProcess two_files = []
  /\ FileRestrictionError (Some 1%N) two_files
       (Some (Ui.sendImagesAsPhotos as_files)) = None
  /\ Ui.error two_files = Ui.Error.None
  /\ exists w',
       sendingFilesConfirmed two_files as_files look
         Api.SendOptions_default false world_typing
       = Done tt w'
       /\ captions_sent (logged_since world_typing w')
          = (if isEmpty (text look) then [] else [look])
       /\ _controls w' = _controls world_typing.
Proof.
  assert (U : user (_data world_typing) = Some 1%N) by reflexivity.
  assert (P : Ui.filesToProcess two_files = []) by reflexivity.
  assert (R : FileRestrictionError (Some 1%N) two_files
                (Some (Ui.sendImagesAsPhotos as_files)) = None)
    by reflexivity.
  assert (E : Ui.error two_files = Ui.Error.None) by reflexivity.
  split; [exact U|]. split; [exact P|]. split; [exact R|]. split; [exact E|].
  exact (sendingFilesConfirmed_sends_caption_once
           world_typing 1%N two_files as_files look
           Api.SendOptions_default false U P R E).
Defined.

Lemma sendingFilesConfirmed_sends_each_group_witness :
  user (_data world_typing) = Some 1%N
  /\ Ui.filesToProcess two_files = []
  /\ FileRestrictionError (Some 1%N) two_files
       (Some (Ui.sendImagesAsPhotos as_files)) = None
  /\ Ui.error two_files = Ui.Error.None
  /\ exists w' action first_caption before,
       sendingFilesConfirmed two_files as_files look
         Api.SendOptions_default false world_typing
       = Done tt w'
       /\ logged_since world_typing w'
          = before ++
            sendFiles_calls
              (if Ui.sendImagesAsPhotos as_files
               then SendMediaType_Photo else SendMediaType_File)
              action first_caption
              (DivideByGroups two_files as_files (slowmodeApplied 1%N)) ++
            [controls_hidePanelsAnimated; wrap_setFocus]
       /\ (before = []
           \/ before = [api_sendMessage
                          {| Api.action := action;
                             Api.textWithTags := look;
                             Api.webPageId := 0%Z |}])
       /\ replies_to_story (_data world_typing) action = true
       /\ Api.clearDraft action = false.
Proof.
  assert (U : user (_data world_typing) = Some 1%N) by reflexivity.
  assert (P : Ui.filesToProcess two_files = []) by reflexivity.
  assert (R : FileRestrictionError (Some 1%N) two_files
                (Some (Ui.sendImagesAsPhotos as_files)) = None)
    by reflexivity.
  assert (E : Ui.error two_files = Ui.Error.None) by reflexivity.
  split; [exact U|]. split; [exact P|]. split; [exact R|]. split; [exact E|].
  exact (sendingFilesConfirmed_sends_each_group
           world_typing 1%N two_files as_files look
           Api.SendOptions_default false U P R E).
Defined.

(** User 1 is shown and a picture file is dropped. *)
Lemma confirmSendingFiles_never_sends_witness :
  ((exists data overrideSendImagesAsPhotos insertTextOnCancel,
       confirmSendingFiles data overrideSendImagesAsPhotos
         insertTextOnCancel world_shown
       = Done true (world_box dropped_list))
   \/ (exists prepared insertTextOnCancel,
         confirmSendingFiles_list prepared insertTextOnCancel world_shown
         = Done true (world_box dropped_list))
   \/ (exists picture content overrideSendImagesAsPhotos insertTextOnCancel,
         confirmSendingFiles_image picture content
           overrideSendImagesAsPhotos insertTextOnCancel world_shown
         = Done true (world_box dropped_list)))
  /\ hands_to_session world_shown (world_box dropped_list) = false
  /\ world_box dropped_list
     = set_log (log (world_box dropped_list)) world_shown.
Proof.
  assert (H :
    (exists data overrideSendImagesAsPhotos insertTextOnCancel,
        confirmSendingFiles data overrideSendImagesAsPhotos
          insertTextOnCancel world_shown
        = Done true (world_box dropped_list))
    \/ (exists prepared insertTextOnCancel,
          confirmSendingFiles_list prepared insertTextOnCancel world_shown
          = Done true (world_box dropped_list))
    \/ (exists picture content overrideSendImagesAsPhotos insertTextOnCancel,
          confirmSendingFiles_image picture content
            overrideSendImagesAsPhotos insertTextOnCancel world_shown
          = Done true (world_box dropped_list))).
  { left. exists Sample.dropped_picture, None, "". reflexivity. }
  split; [exact H|].
  exact (confirmSendingFiles_never_sends
           world_shown (world_box dropped_list) true H).
Defined.

(** User 1 is shown and two files are offered. *)
Lemma confirmSendingFiles_list_opens_box_witness :
  confirmMediaEdit two_files = false
  /\ FileRestrictionError (user (_data world_shown)) two_files None = None
  /\ Ui.error two_files = Ui.Error.None
  /\ confirmSendingFiles_list two_files "" world_shown =
       Done true
         (set_log
            (log world_shown ++
               [show_SendFilesBox
                  {| box_list := two_files;
                     box_caption := HistoryView.field (_controls world_shown);
                     box_peer := user (_data world_shown);
                     box_insertTextOnCancel := "" |}])
            world_shown).
Proof.
  assert (M : confirmMediaEdit two_files = false) by reflexivity.
  assert (R : FileRestrictionError (user (_data world_shown)) two_files None
              = None) by reflexivity.
  assert (E : Ui.error two_files = Ui.Error.None) by reflexivity.
  split; [exact M|]. split; [exact R|]. split; [exact E|].
  exact (confirmSendingFiles_list_opens_box world_shown two_files "" M R E).
Defined.

Lemma confirmSendingFiles_list_shows_one_thing_witness :
  confirmMediaEdit two_files = false
  /\ confirmSendingFiles_list two_files "" world_shown
     = Done true (world_box two_files)
  /\ exists e,
       world_box two_files = set_log (log world_shown ++ [e]) world_shown
       /\ is_SendFilesBox e = true.
Proof.
  assert (M : confirmMediaEdit two_files = false) by reflexivity.
  assert (C : confirmSendingFiles_list two_files "" world_shown
              = Done true (world_box two_files)) by reflexivity.
  split; [exact M|]. split; [exact C|].
  exact (confirmSendingFiles_list_shows_one_thing
           world_shown (world_box two_files) two_files "" true M C).
Defined.

(** User 1 is shown, "hi" is typed and sent. *)
Lemma session_calls_reply_to_stored_story_witness :
  step (sendRequests Api.SendOptions_default) world_typing
  = Done tt world_sent
  /\ In (api_sendMessage message_hi) (logged_since world_typing world_sent)
  /\ action_of (api_sendMessage message_hi) = Some (Api.action message_hi)
  /\ exists u,
       user (_data world_typing) = Some u
       /\ Api.history (Api.action message_hi) = owner_history u
       /\ Api.peer (Api.storyId (Api.replyTo (Api.action message_hi)))
          = user_id u
       /\ Api.story (Api.storyId (Api.replyTo (Api.action message_hi)))
          = id (_data world_typing).
Proof.
  assert (S : step (sendRequests Api.SendOptions_default) world_typing
              = Done tt world_sent) by reflexivity.
  assert (I : In (api_sendMessage message_hi)
                (logged_since world_typing world_sent)).
  { left. reflexivity. }
  assert (A : action_of (api_sendMessage message_hi)
              = Some (Api.action message_hi)) by reflexivity.
  split; [exact S|]. split; [exact I|]. split; [exact A|].
  exact (session_calls_reply_to_stored_story
           (sendRequests Api.SendOptions_default) world_typing world_sent
           (api_sendMessage message_hi) (Api.action message_hi) S I A).
Defined.

(** Nothing has been shown and the attach button is pressed. *)
Lemma nothing_is_sent_without_user_witness :
  user (_data constructed) = None
  /\ step (attachRequests None) constructed = Done tt world_waiting
  /\ hands_to_session constructed world_waiting = false.
Proof.
  assert (U : user (_data constructed) = None) by reflexivity.
  assert (S : step (attachRequests None) constructed = Done tt world_waiting)
    by reflexivity.
  split; [exact U|]. split; [exact S|].
  exact (nothing_is_sent_without_user
           (attachRequests None) constructed world_waiting U S).
Defined.

(** User 1 is shown and a picture file is dropped, with a text to put
    back on cancel. *)
Lemma confirmSendingFiles_prefers_urls_witness :
  user (_data world_shown) = Some 1%N
  /\ mimeUrls Sample.dropped_picture <> []
  /\ Ui.error
       (PrepareMediaList (mimeUrls Sample.dropped_picture)
          (session_premium 1%N))
     <> Ui.Error.NonLocalUrl
  /\ (Ui.error
        (PrepareMediaList (mimeUrls Sample.dropped_picture)
           (session_premium 1%N))
      = Ui.Error.None
      \/ hasImage Sample.dropped_picture = false)
  /\ confirmSendingFiles_list
       (Ui.with_override
          (PrepareMediaList (mimeUrls Sample.dropped_picture)
             (session_premium 1%N))
          None)
       "" world_shown
     = Done true (world_box dropped_list)
  /\ confirmSendingFiles Sample.dropped_picture None "typed before"
       world_shown
     = Done true (world_box dropped_list).
Proof.
  assert (U : user (_data world_shown) = Some 1%N) by reflexivity.
  assert (N0 : mimeUrls Sample.dropped_picture <> []).
  { vm_compute. discriminate. }
  assert (L : Ui.error
                (PrepareMediaList (mimeUrls Sample.dropped_picture)
                   (session_premium 1%N))
              <> Ui.Error.NonLocalUrl).
  { vm_compute. discriminate. }
  assert (K : Ui.error
                (PrepareMediaList (mimeUrls Sample.dropped_picture)
                   (session_premium 1%N))
              = Ui.Error.None
              \/ hasImage Sample.dropped_picture = false).
  { left. reflexivity. }
  assert (C : confirmSendingFiles_list
                (Ui.with_override
                   (PrepareMediaList (mimeUrls Sample.dropped_picture)
                      (session_premium 1%N))
                   None)
                "" world_shown
              = Done true (world_box dropped_list)) by reflexivity.
  split; [exact U|]. split; [exact N0|]. split; [exact L|].
  split; [exact K|]. split; [exact C|].
  exact (confirmSendingFiles_prefers_urls
           world_shown (world_box dropped_list) 1%N Sample.dropped_picture
           None "typed before" true U N0 L K C).
Defined.


(** User 1 is shown and the dialog hands back remote content that is
    no image. *)
Lemma dialog_remote_content_is_uploaded_witness :
  user (_data world_shown) = Some 1%N
  /\ FileDialog.remoteContent remote_blob <> ""
  /\ (isNull (image (Images_Read (FileDialog.remoteContent remote_blob)))
      = true
      \/ animated (Images_Read (FileDialog.remoteContent remote_blob)) = true)
  /\ exists action,
       chooseAttach_callback None remote_blob world_shown =
         Done tt
           (set_log
              (log world_shown ++
                 [api_sendFile (FileDialog.remoteContent remote_blob)
                    SendMediaType_File action])
              world_shown)
       /\ replies_to_story (_data world_shown) action = true
       /\ Api.options action
          = {| Api.sendAs := HistoryView.sendAsPeer (_controls world_shown);
               Api.scheduled := 0%Z;
               Api.silent := false |}.
Proof.
  assert (U : user (_data world_shown) = Some 1%N) by reflexivity.
  assert (C : FileDialog.remoteContent remote_blob <> "").
  { vm_compute. discriminate. }
  assert (R : isNull (image (Images_Read
                               (FileDialog.remoteContent remote_blob)))
              = true
              \/ animated (Images_Read
                             (FileDialog.remoteContent remote_blob)) = true).
  { left. reflexivity. }
  split; [exact U|]. split; [exact C|]. split; [exact R|].
  exact (dialog_remote_content_is_uploaded
           world_shown 1%N None remote_blob U C R).
Defined.

(** The open dialog of user 1 is cancelled. *)
Lemma dialog_without_result_changes_nothing_witness :
  FileDialog.paths cancelled = []
  /\ FileDialog.remoteContent cancelled = ""
  /\ step (dialogClosed 0 cancelled) world_dialog
     = Done tt (dialog_dropped 0 world_dialog).
Proof.
  assert (P : FileDialog.paths cancelled = []) by reflexivity.
  assert (C : FileDialog.remoteContent cancelled = "") by reflexivity.
  split; [exact P|]. split; [exact C|].
  exact (dialog_without_result_changes_nothing world_dialog 0 cancelled P C).
Defined.

(** The open dialog of user 1 hands back one path. *)
Lemma dialog_paths_open_send_files_box_witness :
  nth_error (dialogs world_dialog) 0 = Some dialog_of_user_1
  /\ alive (guard dialog_of_user_1) (_shownUserGuard world_dialog) = true
  /\ user (_data world_dialog) = Some 1%N
  /\ FileDialog.paths chosen_paths <> []
  /\ FileDialog.remoteContent chosen_paths = ""
  /\ picked_list
     = Ui.with_override
         (PrepareMediaList (FileDialog.paths chosen_paths)
            (session_premium 1%N))
         (captured_override dialog_of_user_1)
  /\ confirmMediaEdit picked_list = false
  /\ FileRestrictionError (Some 1%N) picked_list None = None
  /\ Ui.error picked_list = Ui.Error.None
  /\ step (dialogClosed 0 chosen_paths) world_dialog =
       Done tt
         (set_log
            (log world_dialog ++
               [show_SendFilesBox
                  {| box_list := picked_list;
                     box_caption := HistoryView.field (_controls world_dialog);
                     box_peer := Some 1%N;
                     box_insertTextOnCancel := "" |}])
            (dialog_dropped 0 world_dialog)).
Proof.
  assert (H1 : nth_error (dialogs world_dialog) 0 = Some dialog_of_user_1)
    by reflexivity.
  assert (H2 : alive (guard dialog_of_user_1) (_shownUserGuard world_dialog)
               = true) by reflexivity.
  assert (H3 : user (_data world_dialog) = Some 1%N) by reflexivity.
  assert (H4 : FileDialog.paths chosen_paths <> []).
  { vm_compute. discriminate. }
  assert (H5 : FileDialog.remoteContent chosen_paths = "") by reflexivity.
  assert (H6 : picked_list
               = Ui.with_override
                   (PrepareMediaList (FileDialog.paths chosen_paths)
                      (session_premium 1%N))
                   (captured_override dialog_of_user_1)) by reflexivity.
  assert (H7 : confirmMediaEdit picked_list = false) by reflexivity.
  assert (H8 : FileRestrictionError (Some 1%N) picked_list None = None)
    by reflexivity.
  assert (H9 : Ui.error picked_list = Ui.Error.None) by reflexivity.
  split; [exact H1|]. split; [exact H2|]. split; [exact H3|].
  split; [exact H4|]. split; [exact H5|]. split; [exact H6|].
  split; [exact H7|]. split; [exact H8|]. split; [exact H9|].
  exact (dialog_paths_open_send_files_box
           world_dialog 0 dialog_of_user_1 1%N chosen_paths picked_list
           H1 H2 H3 H4 H5 H6 H7 H8 H9).
Defined.

(** User 1 is shown and the attach button is pressed. *)
Lemma attach_request_opens_one_dialog_witness :
  reachable world_shown
  /\ _choosingAttach world_shown = false
  /\ user (_data world_shown) = Some 1%N
  /\ AnyFileRestrictionError 1%N = None
  /\ run [attachRequests None; timerFired 0] world_shown =
       Done tt
         (set_dialogs
            (dialogs world_shown ++
               [{| guard := make_weak (_shownUserGuard world_shown);
                   captured_override := None;
                   opened_under := 1%N |}])
            (set_log
               (log world_shown ++
                  [call_delayed None;
                   GetOpenPaths
                     (if is_true None
                      then FileDialog.ImagesOrAllFilter
                      else FileDialog.AllOrImagesFilter)])
               world_shown)).
Proof.
  assert (F : _choosingAttach world_shown = false) by reflexivity.
  assert (U : user (_data world_shown) = Some 1%N) by reflexivity.
  assert (A : AnyFileRestrictionError 1%N = None) by reflexivity.
  split; [exact world_shown_reachable|]. split; [exact F|].
  split; [exact U|]. split; [exact A|].
  exact (attach_request_opens_one_dialog
           world_shown 1%N None world_shown_reachable F U A).
Defined.

(** User 1 is shown; the attach button, the timer, one path picked. *)
Lemma attach_flow_ends_in_send_files_box_witness :
  reachable world_shown
  /\ _choosingAttach world_shown = false
  /\ user (_data world_shown) = Some 1%N
  /\ AnyFileRestrictionError 1%N = None
  /\ FileDialog.paths chosen_paths <> []
  /\ FileDialog.remoteContent chosen_paths = ""
  /\ picked_list
     = Ui.with_override
         (PrepareMediaList (FileDialog.paths chosen_paths)
            (session_premium 1%N))
         None
  /\ confirmMediaEdit picked_list = false
  /\ FileRestrictionError (Some 1%N) picked_list None = None
  /\ Ui.error picked_list = Ui.Error.None
  /\ run [attachRequests None;
          timerFired 0;
          dialogClosed (List.length (dialogs world_shown)) chosen_paths]
       world_shown =
       Done tt
         (set_log
            (log world_shown ++
               [call_delayed None;
                GetOpenPaths
                  (if is_true None
                   then FileDialog.ImagesOrAllFilter
                   else FileDialog.AllOrImagesFilter);
                show_SendFilesBox
                  {| box_list := picked_list;
                     box_caption := HistoryView.field (_controls world_shown);
                     box_peer := Some 1%N;
                     box_insertTextOnCancel := "" |}])
            world_shown).
Proof.
  assert (F : _choosingAttach world_shown = false) by reflexivity.
  assert (U : user (_data world_shown) = Some 1%N) by reflexivity.
  assert (A : AnyFileRestrictionError 1%N = None) by reflexivity.
  assert (H4 : FileDialog.paths chosen_paths <> []).
  { vm_compute. discriminate. }
  assert (H5 : FileDialog.remoteContent chosen_paths = "") by reflexivity.
  assert (H6 : picked_list
               = Ui.with_override
                   (PrepareMediaList (FileDialog.paths chosen_paths)
                      (session_premium 1%N))
                   None) by reflexivity.
  assert (H7 : confirmMediaEdit picked_list = false) by reflexivity.
  assert (H8 : FileRestrictionError (Some 1%N) picked_list None = None)
    by reflexivity.
  assert (H9 : Ui.error picked_list = Ui.Error.None) by reflexivity.
  split; [exact world_shown_reachable|]. split; [exact F|].
  split; [exact U|]. split; [exact A|]. split; [exact H4|].
  split; [exact H5|]. split; [exact H6|]. split; [exact H7|].
  split; [exact H8|]. split; [exact H9|].
  exact (attach_flow_ends_in_send_files_box
           world_shown 1%N None chosen_paths picked_list
           world_shown_reachable F U A H4 H5 H6 H7 H8 H9).
Defined.

(** An attach request has been accepted and its timer has not fired. *)
Lemma at_most_one_delayed_chooser_witness :
  reachable world_waiting
  /\ List.length (delayed world_waiting) <= 1
  /\ (delayed world_waiting <> [] -> _choosingAttach world_waiting = true).
Proof.
  split; [exact world_waiting_reachable|].
  exact (at_most_one_delayed_chooser world_waiting world_waiting_reachable).
Defined.

Lemma attach_requests_dropped_while_pending_witness :
  reachable world_waiting
  /\ delayed world_waiting <> []
  /\ step (attachRequests (Some true)) world_waiting = Done tt world_waiting.
Proof.
  assert (D : delayed world_waiting <> []).
  { vm_compute. discriminate. }
  split; [exact world_waiting_reachable|]. split; [exact D|].
  exact (attach_requests_dropped_while_pending
           world_waiting (Some true) world_waiting_reachable D).
Defined.

(** User 1 is shown with "hi" typed. *)
Lemma controls_target_stored_user_witness :
  reachable world_typing
  /\ HistoryView.history (_controls world_typing)
     = option_map owner_history (user (_data world_typing)).
Proof.
  split; [exact world_typing_reachable|].
  exact (controls_target_stored_user world_typing world_typing_reachable).
Defined.
